(** * RadTTSModel: the training / validation / inference glue of
      [nemo/collections/tts/models/radtts.py]

    The Python class is embedded shallowly.  Tensors, Python floats and the
    collaborating modules (synthesis network, loss modules, tokenizer) are
    not part of the file and are taken as parameters; every method of the
    class is a computation in a small state-and-exception monad whose state
    holds the fields of [self] the methods read or write together with the
    trace of calls made to the outside world (metrics sink, Python logging,
    synthesis network, TensorBoard). *)

From Stdlib Require Import ZArith List String Bool Lia QArith.
Import ListNotations.

Local Open Scope Z_scope.
Local Open Scope string_scope.

(** ** Python values *)

(** The built-in exceptions the methods can raise. *)
Inductive exn : Type :=
| TypeError
| IndexError
| KeyError
| NameError (name : string)
| SystemExit (code : Z).

Inductive result (A : Type) : Type :=
| Ok (a : A)
| Raise (e : exn).

Arguments Ok {A} a.
Arguments Raise {A} e.

(** [torch] as far as the class uses it.  [tensor] is [torch.Tensor] and
    [pyfloat] the Python float of loss weights and hyper-parameters.  Device
    placement ([.cuda().to(self.device)]) and [.long()] do not change a
    value and are left out. *)
Class Torch : Type := {
  tensor : Type;
  pyfloat : Type;
  (** [a + b] and the in-place [a += b] *)
  t_add : tensor -> tensor -> tensor;
  (** [v * w] for a tensor [v] and a float [w] *)
  t_scale : tensor -> pyfloat -> tensor;
  (** [torch.zeros_like(t)] *)
  zeros_like : tensor -> tensor;
  (** [torch.tensor(l)] for a list of Python ints *)
  int_tensor : list Z -> tensor;
  (** [t.unsqueeze(0)] *)
  unsqueeze0 : tensor -> tensor;
  (** [t.size(0)]; [None] stands for the IndexError of a 0-dim tensor *)
  size0 : tensor -> option nat;
  (** [t[0]]; [None] stands for the IndexError of a 0-dim or empty tensor *)
  index0 : tensor -> option tensor;
  (** [w > 0] *)
  float_pos : pyfloat -> bool;
  (** the literal [1.0] *)
  float_one : pyfloat
}.

(** ** Python dicts

    A dict keeps its keys in insertion order, and both the summation of the
    loss terms and the order of the log calls follow it: association lists,
    with assignment replacing the value of a present key in place and
    appending an absent one. *)

Definition dict (V : Type) : Type := list (string * V).

Fixpoint dict_get {V : Type} (k : string) (d : dict V) : option V :=
  match d with
  | [] => None
  | (k', v) :: r => if String.eqb k' k then Some v else dict_get k r
  end.

Fixpoint dict_set {V : Type} (k : string) (v : V) (d : dict V) : dict V :=
  match d with
  | [] => [(k, v)]
  | (k', v') :: r =>
      if String.eqb k' k then (k', v) :: r else (k', v') :: dict_set k v r
  end.

Definition keys {V : Type} (d : dict V) : list string := map fst d.

(** The keys of a dict are pairwise distinct. *)
Fixpoint dict_wf {V : Type} (d : dict V) : bool :=
  match d with
  | [] => true
  | (k, _) :: r => negb (existsb (String.eqb k) (keys r)) && dict_wf r
  end.

(** ** The model object *)

(** [cfg.trainerConfig] and [cfg.optim], the fields the methods read. *)
Record config {T : Torch} : Type := {
  binarization_start_iter : Z;
  kl_loss_start_iter : Z;
  finetune_layers : list string;
  optim_name : string;
  optim_lr : pyfloat;
  optim_weight_decay : pyfloat
}.

(** The keyword and positional arguments of [self.model(...)]. *)
Record model_args {T : Torch} : Type := {
  arg_mel : tensor;
  arg_speaker_ids : tensor;
  arg_text : tensor;
  arg_in_lens : tensor;
  arg_out_lens : tensor;
  arg_binarize_attention : bool;
  arg_attn_prior : tensor;
  arg_f0 : tensor;
  arg_energy_avg : tensor;
  arg_voiced_mask : tensor;
  arg_p_voiced : tensor
}.

(** The collaborators held by [self].  [outputs] is the record the synthesis
    network returns; the class reads its entries ['attn'], ['attn_soft'] and
    ['mel'] only.  The collaborators are functions of their arguments: a
    failure inside one of them is outside this development. *)
Class collaborators {T : Torch} : Type := {
  outputs : Type;
  image : Type;
  parameters : Type;
  out_attn : outputs -> tensor;
  out_attn_soft : outputs -> tensor;
  out_mel : outputs -> tensor;
  (** [self.model(...)] *)
  net_forward : model_args -> outputs;
  (** [self.model.infer(speaker, tokens, sigma=sigma)] *)
  net_infer : tensor -> tensor -> pyfloat -> outputs;
  (** [self.model.parameters()] *)
  net_parameters : parameters;
  (** [self.criterion(outputs, in_lens, out_lens)]; it returns a dict, so
      its keys are distinct *)
  criterion : outputs -> tensor -> tensor -> dict (tensor * pyfloat);
  criterion_wf : forall out in_lens out_lens,
      dict_wf (criterion out in_lens out_lens) = true;
  (** [self.attention_kl_loss(attn, attn_soft)] *)
  attention_kl_loss : tensor -> tensor -> tensor;
  (** [self.tokenizer(text)] *)
  tokenizer : string -> list Z;
  (** [self.text_normalizer_call] with its keyword arguments applied *)
  text_normalizer_call : option (string -> string);
  (** [plot_alignment_to_numpy(t.data.cpu().numpy().T, title="audio")] *)
  plot_alignment_to_numpy : tensor -> image
}.

(** What a method does to the outside world, in the order it does it. *)
Inductive event {T : Torch} {C : collaborators} : Type :=
| EvLog (key : string) (value : tensor)          (* self.log(key, value) *)
| EvInfo (msg : string)                          (* logging.info(msg) *)
| EvWarning (msg : string)                       (* logging.warning(msg) *)
| EvForward (args : model_args)                  (* self.model(...) *)
| EvInfer (speaker tokens : tensor) (sigma : pyfloat)
| EvAttentionKL (attn attn_soft : tensor)        (* self.attention_kl_loss(...) *)
| EvImage (tag : string) (img : image) (step : Z). (* tb_logger.add_image *)

(** The mutable part of [self]. *)
Record module_state {T : Torch} {C : collaborators} : Type := {
  training : bool;
  global_step : Z;
  log_train_images : bool;
  trace : list event
}.

Section Monad.
Context {T : Torch} {C : collaborators}.

(** A method body: it reads and writes [self] and returns or raises. *)
Definition M (A : Type) : Type := module_state -> result A * module_state.

Definition ret {A : Type} (a : A) : M A := fun s => (Ok a, s).

Definition bind {A B : Type} (m : M A) (f : A -> M B) : M B :=
  fun s =>
    match m s with
    | (Ok a, s') => f a s'
    | (Raise e, s') => (Raise e, s')
    end.

Definition raise {A : Type} (e : exn) : M A := fun s => (Raise e, s).

Definition get_self : M module_state := fun s => (Ok s, s).

Definition add_trace (s : module_state) (evs : list event) : module_state :=
  {| training := training s;
     global_step := global_step s;
     log_train_images := log_train_images s;
     trace := trace s ++ evs |}.

Definition emit (e : event) : M unit := fun s => (Ok tt, add_trace s [e]).


Definition set_log_train_images (b : bool) : M unit :=
  fun s =>
    (Ok tt,
     {| training := training s;
        global_step := global_step s;
        log_train_images := b;
        trace := trace s |}).

(** An operation that raises [e] where Python raises. *)
Definition or_raise {A : Type} (e : exn) (o : option A) : M A :=
  match o with
  | Some a => ret a
  | None => raise e
  end.

End Monad.

Declare Scope py_scope.
Delimit Scope py_scope with py.
Notation "x <- c1 ;; c2" := (bind c1 (fun x => c2))
  (at level 61, c1 at next level, right associativity) : py_scope.
Notation "c1 ;;; c2" := (bind c1 (fun _ => c2))
  (at level 61, right associativity) : py_scope.
Local Open Scope py_scope.

Section RadTTSModel.
Context {T : Torch} {C : collaborators}.
Variable cfg : config.

(** [seq[i]] on a Python sequence, for a non-negative literal [i]. *)
Definition py_index (batch_data : list tensor) (i : nat) : M tensor :=
  or_raise IndexError (nth_error batch_data i).

(** [d[k]] on a dict. *)
Definition py_getitem {V : Type} (d : dict V) (k : string) : M V :=
  or_raise KeyError (dict_get k d).

(** [for x in l: body(x)] *)
Fixpoint for_each {A : Type} (body : A -> M unit) (l : list A) : M unit :=
  match l with
  | [] => ret tt
  | x :: r => body x ;;; for_each body r
  end.

(** *** batch_dict (lines 87-108) *)
Definition batch_dict (batch_data : list tensor) : M (dict tensor) :=
  spk_id <-
    (if (List.length batch_data <? 14)%nat then
       text_lens <- py_index batch_data 3 ;;
       n <- or_raise IndexError (size0 text_lens) ;;
       ret (int_tensor (repeat 0 n))
     else py_index batch_data 13) ;;
  b0 <- py_index batch_data 0 ;;
  b1 <- py_index batch_data 1 ;;
  b2 <- py_index batch_data 2 ;;
  b3 <- py_index batch_data 3 ;;
  b4 <- py_index batch_data 4 ;;
  b5 <- py_index batch_data 5 ;;
  b6 <- py_index batch_data 6 ;;
  b7 <- py_index batch_data 7 ;;
  b8 <- py_index batch_data 8 ;;
  b9 <- py_index batch_data 9 ;;
  b10 <- py_index batch_data 10 ;;
  b11 <- py_index batch_data 11 ;;
  b12 <- py_index batch_data 12 ;;
  ret [ ("audio", b0);
        ("audio_lens", b1);
        ("text", b2);
        ("text_lens", b3);
        ("log_mel", b4);
        ("log_mel_lens", b5);
        ("align_prior_matrix", b6);
        ("pitch", b7);
        ("pitch_lens", b8);
        ("voiced_mask", b9);
        ("p_voiced", b10);
        ("energy", b11);
        ("energy_lens", b12);
        ("speaker_id", spk_id) ].

(** *** The phase gates

    The local variable [binarize] of [training_step] (lines 123-131) and of
    [validation_step] (lines 178-186), and the tests that guard the
    binarization-KL loss (line 153 and lines 207-211). *)
Definition training_step_binarize (gs : Z) : bool :=
  (binarization_start_iter cfg >=? 0) && (gs >=? binarization_start_iter cfg).

Definition validation_step_binarize (gs : Z) : bool :=
  (binarization_start_iter cfg >=? 0) && (gs >=? binarization_start_iter cfg).

Definition training_step_kl_test (binarize : bool) (gs : Z) : bool :=
  binarize && (gs >=? kl_loss_start_iter cfg).

Definition validation_step_kl_test (binarize : bool) (gs : Z) : bool :=
  binarize && (kl_loss_start_iter cfg >=? 0) && (gs >=? kl_loss_start_iter cfg).

(** *** The weighted sum (lines 148-151 and 202-205)

    [loss] starts as [None]; a term is added when its weight is positive. *)
Definition accumulate (loss : option tensor) (term : string * (tensor * pyfloat))
  : option tensor :=
  let '(_, (v, w)) := term in
  if float_pos w then
    match loss with
    | None => Some (t_scale v w)
    | Some l => Some (t_add l (t_scale v w))
    end
  else loss.

Definition weighted_total (loss_outputs : dict (tensor * pyfloat)) : option tensor :=
  fold_left accumulate loss_outputs None.

(** The arguments of the call [self.model(...)] of both steps, with the
    value passed as [binarize_attention].  The steps read the fields off the
    record at their start (lines 112-121 and 168-177, in two different
    orders); on a record made by [batch_dict] no read can fail, so the order
    of the reads is not observable. *)
Definition forward_args (batch : dict tensor) (binarize_attention : bool)
  : M model_args :=
  mel <- py_getitem batch "log_mel" ;;
  speaker_ids <- py_getitem batch "speaker_id" ;;
  text <- py_getitem batch "text" ;;
  in_lens <- py_getitem batch "text_lens" ;;
  out_lens <- py_getitem batch "log_mel_lens" ;;
  attn_prior <- py_getitem batch "align_prior_matrix" ;;
  f0 <- py_getitem batch "pitch" ;;
  voiced_mask <- py_getitem batch "voiced_mask" ;;
  p_voiced <- py_getitem batch "p_voiced" ;;
  energy_avg <- py_getitem batch "energy" ;;
  ret {| arg_mel := mel;
         arg_speaker_ids := speaker_ids;
         arg_text := text;
         arg_in_lens := in_lens;
         arg_out_lens := out_lens;
         arg_binarize_attention := binarize_attention;
         arg_attn_prior := attn_prior;
         arg_f0 := f0;
         arg_energy_avg := energy_avg;
         arg_voiced_mask := voiced_mask;
         arg_p_voiced := p_voiced |}.

(** Lines 153-157 and 207-215: [loss += binarization_loss] and
    [torch.zeros_like(loss)] both raise TypeError on [loss = None]. *)
Definition add_binarization_loss (active : bool) (out : outputs)
  (loss : option tensor) : M (tensor * tensor) :=
  if active then
    emit (EvAttentionKL (out_attn out) (out_attn_soft out)) ;;;
    let binarization_loss := attention_kl_loss (out_attn out) (out_attn_soft out) in
    l <- or_raise TypeError loss ;;
    ret (binarization_loss, t_add l binarization_loss)
  else
    l <- or_raise TypeError loss ;;
    ret (zeros_like l, l).

(** Line 158: the auxiliary term enters the mapping as a (value, weight)
    tuple. *)
Definition training_record (binarization_loss : tensor)
  (loss_outputs : dict (tensor * pyfloat)) : dict (tensor * pyfloat) :=
  dict_set "binarization_loss" (binarization_loss, float_one) loss_outputs.

(** *** training_step (lines 110-163); the result is [{'loss': loss}]. *)
Definition training_step (batch_data : list tensor) (batch_idx : Z) : M tensor :=
  batch <- batch_dict batch_data ;;
  self <- get_self ;;
  let binarize := training_step_binarize (global_step self) in
  args <- forward_args batch binarize ;;
  emit (EvForward args) ;;;
  let out := net_forward args in
  let loss_outputs := criterion out (arg_in_lens args) (arg_out_lens args) in
  let loss := weighted_total loss_outputs in
  bl <- add_binarization_loss
          (training_step_kl_test binarize (global_step self)) out loss ;;
  let '(binarization_loss, loss) := bl in
  let loss_outputs := training_record binarization_loss loss_outputs in
  for_each
    (fun item : string * (tensor * pyfloat) =>
       let '(k, _) := item in
       entry <- py_getitem loss_outputs k ;;
       emit (EvLog ("train/" ++ k) (fst entry)))
    loss_outputs ;;;
  ret loss.

(** A value of the dict [validation_step] returns as ['loss_outputs']: the
    tuple [(v, w)] of the loss module, or a tensor on its own. *)
Inductive loss_entry : Type :=
| Weighted (v : tensor) (w : pyfloat)
| Bare (v : tensor).

Record validation_output : Type := {
  val_loss_outputs : dict loss_entry;
  val_attn : option tensor;
  val_attn_soft : option tensor;
  val_audiopaths : option string
}.

(** Line 216: the auxiliary term enters the mapping as a tensor, next to
    the (value, weight) tuples of the loss module. *)
Definition validation_record (binarization_loss : tensor)
  (loss_outputs : dict (tensor * pyfloat)) : dict loss_entry :=
  dict_set "binarization_loss" (Bare binarization_loss)
    (map (fun item : string * (tensor * pyfloat) =>
            (fst item, Weighted (fst (snd item)) (snd (snd item))))
         loss_outputs).

(** *** validation_step (lines 165-223) *)
Definition validation_step (batch_data : list tensor) (batch_idx : Z)
  : M validation_output :=
  batch <- batch_dict batch_data ;;
  self <- get_self ;;
  let binarize := validation_step_binarize (global_step self) in
  args <- forward_args batch true ;;
  emit (EvForward args) ;;;
  let out := net_forward args in
  let loss_outputs := criterion out (arg_in_lens args) (arg_out_lens args) in
  let loss := weighted_total loss_outputs in
  bl <- add_binarization_loss
          (validation_step_kl_test binarize (global_step self)) out loss ;;
  let '(binarization_loss, loss) := bl in
  let loss_outputs := validation_record binarization_loss loss_outputs in
  ret {| val_loss_outputs := loss_outputs;
         val_attn := if Z.eqb batch_idx 0 then Some (out_attn out) else None;
         val_attn_soft := if Z.eqb batch_idx 0 then Some (out_attn_soft out) else None;
         val_audiopaths := if Z.eqb batch_idx 0 then Some "audio_1" else None |}.

(** [entry[0]]: the value of a tuple, the first slice of a tensor. *)
Definition entry_index0 (e : loss_entry) : M tensor :=
  match e with
  | Weighted v _ => ret v
  | Bare t => or_raise IndexError (index0 t)
  end.

(** [attn[0, 0]], with the TypeError of [None[0, 0]]. *)
Definition first_map (attn : option tensor) : M tensor :=
  a <- or_raise TypeError attn ;;
  a0 <- or_raise IndexError (index0 a) ;;
  or_raise IndexError (index0 a0).

(** Lines 229-231: the loop that writes the validation losses. *)
Definition log_validation_losses (loss_outputs : dict loss_entry) : M unit :=
  for_each
    (fun item : string * loss_entry =>
       let '(k, _) := item in
       if negb (String.eqb k "binarization_loss") then
         entry <- py_getitem loss_outputs k ;;
         v <- entry_index0 entry ;;
         emit (EvLog ("val/" ++ k) v)
       else ret tt)
    loss_outputs.

(** Lines 233-249: the two attention images.  [self.tb_logger] is taken to
    be the TensorBoard writer of the trainer; the calls to [add_image] are
    recorded in the trace. *)
Definition add_attention_images (first : validation_output) : M unit :=
  let attn := val_attn first in
  let attn_soft := val_attn_soft first in
  m <- first_map attn ;;
  self <- get_self ;;
  emit (EvImage "attention_weights_mas" (plot_alignment_to_numpy m)
          (global_step self)) ;;;
  m <- first_map attn_soft ;;
  self <- get_self ;;
  emit (EvImage "attention_weights" (plot_alignment_to_numpy m)
          (global_step self)) ;;;
  set_log_train_images true.

(** *** validation_epoch_end (lines 225-249) *)
Definition validation_epoch_end (outs : list validation_output) : M unit :=
  first <- or_raise IndexError (nth_error outs 0) ;;
  log_validation_losses (val_loss_outputs first) ;;;
  add_attention_images first.

(** What [configure_optimizers] builds. *)
Inductive optimizer : Type :=
| Adam (params : parameters) (lr weight_decay : pyfloat)
| RAdam (params : parameters) (lr weight_decay : pyfloat).

(** *** configure_optimizers (lines 251-270)

    The loop head of line 254 reads the name [model], which is bound neither
    in the method nor in the module: entering the branch raises NameError
    before the loop body runs.  [exit(1)] raises SystemExit. *)
Definition configure_optimizers : M optimizer :=
  emit (EvInfo ("Initializing " ++ optim_name cfg ++ " optimizer")) ;;;
  (if (List.length (finetune_layers cfg) =? 0)%nat then ret tt
   else raise (NameError "model")) ;;;
  if String.eqb (optim_name cfg) "Adam" then
    ret (Adam net_parameters (optim_lr cfg) (optim_weight_decay cfg))
  else if String.eqb (optim_name cfg) "RAdam" then
    ret (RAdam net_parameters (optim_lr cfg) (optim_weight_decay cfg))
  else
    emit (EvInfo ("Unrecognized optimizer " ++ optim_name cfg ++ "!")) ;;;
    raise (SystemExit 1).


(** *** parse (lines 368-373) *)
Definition parse (text : string) (normalize : bool) : M tensor :=
  self <- get_self ;;
  (if training self then
     emit (EvWarning "parse() is meant to be called in eval mode.")
   else ret tt) ;;;
  let text :=
    match normalize, text_normalizer_call with
    | true, Some call => call text
    | _, _ => text
    end in
  ret (unsqueeze0 (int_tensor (tokenizer text))).

End RadTTSModel.

(** ** Reference descriptions

    What the specification says the methods compute, written independently
    of the method bodies and compared with them below. *)

Section Reference.
Context {T : Torch} {C : collaborators}.

(** The weighted value [value * weight] of a loss term. *)
Definition weighted (term : string * (tensor * pyfloat)) : tensor :=
  t_scale (fst (snd term)) (snd (snd term)).

(** The terms with [weight > 0], in the order of the mapping. *)
Definition positive_terms (loss_outputs : dict (tensor * pyfloat))
  : dict (tensor * pyfloat) :=
  filter (fun term => float_pos (snd (snd term))) loss_outputs.

(** The sum of a list of tensors, from left to right; the empty sum is
    undefined. *)
Definition sum_tensors (l : list tensor) : option tensor :=
  match l with
  | [] => None
  | x :: r => Some (fold_left t_add r x)
  end.

(** [Σ value_i * weight_i] over the terms with [weight_i > 0]. *)
Definition sum_positive_terms (loss_outputs : dict (tensor * pyfloat))
  : option tensor :=
  sum_tensors (map weighted (positive_terms loss_outputs)).

(** The 14 field names of the batch record, in the order of the data model. *)
Definition field_names : list string :=
  [ "audio"; "audio_lens"; "text"; "text_lens"; "log_mel"; "log_mel_lens";
    "align_prior_matrix"; "pitch"; "pitch_lens"; "voiced_mask"; "p_voiced";
    "energy"; "energy_lens"; "speaker_id" ].

(** A batch the adapter accepts: at least 13 tensors, and when the speaker
    id is missing the text-length tensor has a batch dimension. *)
Definition batch_ok (batch_data : list tensor) : Prop :=
  (13 <= List.length batch_data)%nat /\
  ((List.length batch_data < 14)%nat ->
   exists t n, nth_error batch_data 3 = Some t /\ size0 t = Some n).

(** The arguments of a network call with [binarize_attention] replaced. *)
Definition with_flag (a : model_args) (flag : bool) : model_args :=
  {| arg_mel := arg_mel a;
     arg_speaker_ids := arg_speaker_ids a;
     arg_text := arg_text a;
     arg_in_lens := arg_in_lens a;
     arg_out_lens := arg_out_lens a;
     arg_binarize_attention := flag;
     arg_attn_prior := arg_attn_prior a;
     arg_f0 := arg_f0 a;
     arg_energy_avg := arg_energy_avg a;
     arg_voiced_mask := arg_voiced_mask a;
     arg_p_voiced := arg_p_voiced a |}.

(** The arguments taken from the positions of the batch sequence. *)
Definition args_from (batch_data : list tensor) (a : model_args) : Prop :=
  nth_error batch_data 4 = Some (arg_mel a) /\
  nth_error batch_data 2 = Some (arg_text a) /\
  nth_error batch_data 3 = Some (arg_in_lens a) /\
  nth_error batch_data 5 = Some (arg_out_lens a) /\
  nth_error batch_data 6 = Some (arg_attn_prior a) /\
  nth_error batch_data 7 = Some (arg_f0 a) /\
  nth_error batch_data 11 = Some (arg_energy_avg a) /\
  nth_error batch_data 9 = Some (arg_voiced_mask a) /\
  nth_error batch_data 10 = Some (arg_p_voiced a).

(** The loss terms the loss module returns for a network call. *)
Definition losses_of (args : model_args) : dict (tensor * pyfloat) :=
  criterion (net_forward args) (arg_in_lens args) (arg_out_lens args).

(** The value of the binarization-KL loss module for a network call. *)
Definition kl_of (args : model_args) : tensor :=
  attention_kl_loss (out_attn (net_forward args)) (out_attn_soft (net_forward args)).

Definition kl_event (args : model_args) : event :=
  EvAttentionKL (out_attn (net_forward args)) (out_attn_soft (net_forward args)).

(** One metrics-sink call per entry of a mapping, under a stage prefix. *)
Definition logged (stage : string) (d : dict (tensor * pyfloat)) : list event :=
  map (fun item => EvLog (stage ++ fst item) (fst (snd item))) d.

(** The keys under which a trace writes to the metrics sink. *)
Fixpoint logged_keys (evs : list event) : list string :=
  match evs with
  | [] => []
  | EvLog k _ :: r => k :: logged_keys r
  | _ :: r => logged_keys r
  end.

(** The messages a trace sends to [logging.warning]. *)
Fixpoint warnings (evs : list event) : list string :=
  match evs with
  | [] => []
  | EvWarning m :: r => m :: warnings r
  | _ :: r => warnings r
  end.

(** The entries of a mapping other than the binarization term. *)
Definition without_binarization (d : dict (tensor * pyfloat))
  : dict (tensor * pyfloat) :=
  filter (fun item => negb (String.eqb (fst item) "binarization_loss")) d.

(** The metrics-sink calls of the validation loop on a heterogeneous
    mapping: one per (value, weight) entry whose key is not the
    binarization term. *)
Definition validation_logged (d : dict loss_entry) : list event :=
  flat_map
    (fun item =>
       match item with
       | (k, Weighted v _) =>
           if String.eqb k "binarization_loss" then []
           else [EvLog ("val/" ++ k) v]
       | (_, Bare _) => []
       end)
    d.

Definition is_image (e : event) : bool :=
  match e with
  | EvImage _ _ _ => true
  | _ => false
  end.

End Reference.

(** ** A small concrete instance

    Tensors are nested lists of rationals, floats are rationals, the network
    echoes its inputs and the loss module returns a fixed mapping.  It is used
    to run the methods on concrete inputs. *)

Module Toy.

#[warnings="-register-all"]
Inductive ntensor : Type :=
| Scalar (q : Q)
| Stack (rows : list ntensor).

Fixpoint nt_map (f : Q -> Q) (t : ntensor) : ntensor :=
  match t with
  | Scalar q => Scalar (f q)
  | Stack rows => Stack (map (nt_map f) rows)
  end.

Fixpoint nt_add (a b : ntensor) {struct a} : ntensor :=
  match a, b with
  | Scalar x, _ => nt_map (Qplus x) b
  | Stack rows, Scalar y => Stack (map (fun t => nt_add t (Scalar y)) rows)
  | Stack rows, Stack rows' =>
      Stack ((fix zip (l : list ntensor) (m : list ntensor) : list ntensor :=
                match l, m with
                | x :: l', y :: m' => nt_add x y :: zip l' m'
                | _, _ => []
                end) rows rows')
  end.

#[export] Instance torch : Torch := {|
  tensor := ntensor;
  pyfloat := Q;
  t_add := nt_add;
  t_scale := fun v w => nt_map (fun x => Qmult x w) v;
  zeros_like := nt_map (fun _ => 0%Q);
  int_tensor := fun l => Stack (map (fun z => Scalar (inject_Z z)) l);
  unsqueeze0 := fun t => Stack [t];
  size0 := fun t => match t with Scalar _ => None | Stack rows => Some (List.length rows) end;
  index0 := fun t => match t with Stack (x :: _) => Some x | _ => None end;
  float_pos := fun w => negb (Qle_bool w 0);
  float_one := 1%Q
|}.

Record net_outputs : Type := {
  attn : ntensor;
  attn_soft : ntensor;
  mel : ntensor
}.

Definition hard_map : @tensor torch := Stack [Stack [Stack [Scalar 1; Scalar 0]]].
Definition soft_map : @tensor torch := Stack [Stack [Stack [Scalar (1 # 2); Scalar (1 # 2)]]].

Definition collab (terms : dict (@tensor torch * @pyfloat torch))
  (wf : dict_wf terms = true)
  : collaborators := {|
  outputs := net_outputs;
  image := ntensor;
  parameters := unit;
  out_attn := attn;
  out_attn_soft := attn_soft;
  out_mel := mel;
  net_forward := fun args =>
    {| attn := if arg_binarize_attention args then hard_map else soft_map;
       attn_soft := soft_map;
       mel := arg_mel args |};
  net_infer := fun speaker tokens sigma =>
    {| attn := hard_map; attn_soft := soft_map; mel := tokens |};
  net_parameters := tt;
  criterion := fun _ _ _ => terms;
  criterion_wf := fun _ _ _ => wf;
  attention_kl_loss := fun _ _ => Scalar (1 # 4);
  tokenizer := fun text => [Z.of_nat (String.length text)];
  text_normalizer_call := None;
  plot_alignment_to_numpy := fun t => t
|}.

Definition vec (l : list Z) : @tensor torch := int_tensor l.

(** A 0-dim tensor holding one number. *)
Definition scalar (q : Q) : @tensor torch := Scalar q.

(** The mapping [{"a": (2.0, 1.0), "b": (3.0, 0.0)}]. *)
Definition terms_ab : dict (@tensor torch * @pyfloat torch) :=
  [ ("a", (scalar 2, 1%Q)); ("b", (scalar 3, 0%Q)) ].

(** A mapping whose weights are all zero. *)
Definition terms_zero : dict (@tensor torch * @pyfloat torch) :=
  [ ("a", (scalar 2, 0%Q)); ("b", (scalar 3, 0%Q)) ].

Definition collab_ab : collaborators := collab terms_ab eq_refl.
Definition collab_zero : collaborators := collab terms_zero eq_refl.

(** A batch of two utterances without speaker ids (13 tensors) and the same
    batch with speaker ids (14 tensors). *)
Definition batch13 : list (@tensor torch) :=
  [ vec [0; 1]; vec [2; 2]; vec [5; 6]; vec [1; 1]; vec [7; 8]; vec [1; 1];
    vec [9]; vec [3; 4]; vec [1; 1]; vec [1; 0]; vec [1; 0]; vec [2; 2];
    vec [1; 1] ].

Definition batch14 : list (@tensor torch) := batch13 ++ [vec [4; 5]].

Definition config_of (bin_start kl_start : Z) (layers : list string)
  (name : string) : config :=
  {| binarization_start_iter := bin_start;
     kl_loss_start_iter := kl_start;
     finetune_layers := layers;
     optim_name := name;
     optim_lr := (1 # 1000)%Q;
     optim_weight_decay := (1 # 1000000)%Q |}.

Definition self_at {C : collaborators} (train : bool) (step : Z) : module_state :=
  {| training := train;
     global_step := step;
     log_train_images := false;
     trace := [] |}.

(** A model over the mapping "a", "b" and one over the all-zero weights. *)
Definition self_ab (train : bool) (step : Z) : @module_state torch collab_ab :=
  self_at train step.
Definition self_zero (train : bool) (step : Z) : @module_state torch collab_zero :=
  self_at train step.

(** Binarization and its KL loss from step 0 on. *)
Definition cfg_binarized : config := config_of 0 0 [] "Adam".
(** Binarization from step 0 on, KL loss switched off by a negative start. *)
Definition cfg_kl_off : config := config_of 0 (-1) [] "Adam".
(** No binarization phase at all. *)
Definition cfg_soft : config := config_of (-1) (-1) [] "Adam".
(** Binarization from step 100 on, KL loss from step 200 on. *)
Definition cfg_late : config := config_of 100 200 [] "Adam".
(** One fine-tune layer configured. *)
Definition cfg_finetune : config := config_of 0 0 ["attention"] "Adam".

(** A loss module that has a term called "binarization_loss" itself. *)
Definition terms_clash : dict (@tensor torch * @pyfloat torch) :=
  [ ("a", (scalar 2, 1%Q)); ("binarization_loss", (scalar 5, 1%Q));
    ("b", (scalar 3, 0%Q)) ].
Definition collab_clash : collaborators := collab terms_clash eq_refl.
Definition self_clash (train : bool) (step : Z)
  : @module_state torch collab_clash :=
  self_at train step.

End Toy.

(** ** Frame conditions

    What a method may do to [self]: a computation that only emits leaves
    the mode, the step counter and the image flag alone and appends to the
    trace, whether it returns or raises. *)

Section FrameConditions.
Context {T : Torch} {C : collaborators}.

Definition only_emits {A : Type} (m : M A) : Prop :=
  forall s, exists evs, snd (m s) = add_trace s evs.

(** [s'] is [s] with a longer trace. *)
Definition grown (s s' : module_state) : Prop :=
  training s' = training s /\
  global_step s' = global_step s /\
  log_train_images s' = log_train_images s /\
  exists evs, trace s' = (trace s ++ evs)%list.

(** The membership test [k in d] on the keys of a dict. *)
Definition has_key {V : Type} (k : string) (d : dict V) : bool :=
  existsb (String.eqb k) (keys d).

End FrameConditions.

(** ** Data loaders: [_loader], [setup_training_data],
    [setup_validation_data], [setup_test_data] (lines 272-293) *)

Section DataSetup.
Context {T : Torch} {C : collaborators}.
Variables dataset_config dataset dataloader_params data_loader : Type.
(** [instantiate(cfg.dataset)] *)
Variable instantiate_dataset : dataset_config -> dataset.
(** [torch.utils.data.DataLoader(dataset=dataset,
    collate_fn=dataset.collate_fn, **cfg.dataloader_params)] *)
Variable DataLoader : dataset -> dataloader_params -> data_loader.

(** The argument of [_loader].  [cfg_manifest_filepath] is what reading
    [cfg.dataset.manifest_filepath] gives: the path, or [None] when the
    mandatory value was left out and the read raises
    MissingMandatoryValue. *)
Record loader_config : Type := {
  cfg_dataset : dataset_config;
  cfg_manifest_filepath : option string;
  cfg_dataloader_params : dataloader_params
}.

(** When the read in the [try] block raises, Python evaluates the
    expression of the [except] clause, [omegaconf.errors.MissingMandatoryValue].
    The module imports [DictConfig] and [OmegaConf] from [omegaconf] but
    never binds the name [omegaconf], so that evaluation raises NameError
    and the handler body (the warning and [return None]) does not run. *)
Definition _loader (cfg : loader_config) : M (option data_loader) :=
  match cfg_manifest_filepath cfg with
  | None => raise (NameError "omegaconf")
  | Some _ =>
      let dataset := instantiate_dataset (cfg_dataset cfg) in
      ret (Some (DataLoader dataset (cfg_dataloader_params cfg)))
  end.

(** The fields [self._train_dl] and [self._validation_dl]; [None] is the
    Python [None]. *)
Record data_loaders : Type := {
  _train_dl : option data_loader;
  _validation_dl : option data_loader
}.

Definition setup_training_data (cfg : loader_config) (self : data_loaders)
  : M data_loaders :=
  dl <- _loader cfg ;;
  ret {| _train_dl := dl; _validation_dl := _validation_dl self |}.

Definition setup_validation_data (cfg : loader_config) (self : data_loaders)
  : M data_loaders :=
  dl <- _loader cfg ;;
  ret {| _train_dl := _train_dl self; _validation_dl := dl |}.

Definition setup_test_data (cfg : loader_config) (self : data_loaders)
  : M data_loaders :=
  ret self.

End DataSetup.

Arguments cfg_dataset {dataset_config dataloader_params} l.
Arguments cfg_manifest_filepath {dataset_config dataloader_params} l.
Arguments cfg_dataloader_params {dataset_config dataloader_params} l.
Arguments _train_dl {data_loader} d.
Arguments _validation_dl {data_loader} d.
Arguments _loader {T C dataset_config dataset dataloader_params data_loader}
  instantiate_dataset DataLoader cfg _.
Arguments setup_training_data
  {T C dataset_config dataset dataloader_params data_loader}
  instantiate_dataset DataLoader cfg self _.
Arguments setup_validation_data
  {T C dataset_config dataset dataloader_params data_loader}
  instantiate_dataset DataLoader cfg self _.
Arguments setup_test_data {T C dataset_config dataloader_params data_loader}
  cfg self _.

(** ** The TensorBoard handle: the property [tb_logger] (lines 375-387) *)

Section TensorBoard.
(** The objects a logger can hold as its [experiment]. *)
Variable experiment : Type.

(** A logger that is not a collection; its [experiment] is an object or
    [None]. *)
Record plain_logger : Type := {
  is_tensorboard : bool;              (* isinstance(logger, TensorBoardLogger) *)
  plain_experiment : option experiment    (* logger.experiment *)
}.

(** [self.logger]: one logger, or a LoggerCollection with its own
    [experiment] and the loggers it iterates over. *)
Inductive lightning_logger : Type :=
| Plain (l : plain_logger)
| LoggerCollection (own_experiment : option experiment)
    (members : list plain_logger).

Definition logger_experiment (l : lightning_logger) : option experiment :=
  match l with
  | Plain p => plain_experiment p
  | LoggerCollection e _ => e
  end.

(** What reading the property does: it returns a value or raises
    AttributeError. *)
Inductive property_result (A : Type) : Type :=
| Returns (a : A)
| AttributeError.

Arguments Returns {A} a.
Arguments AttributeError {A}.

(** Lines 381-385: the loop over a collection, leaving at the first
    TensorBoardLogger. *)
Fixpoint first_tensorboard (members : list plain_logger)
  (tb_logger : option experiment) : option experiment :=
  match members with
  | [] => tb_logger
  | l :: r =>
      if is_tensorboard l then plain_experiment l
      else first_tensorboard r tb_logger
  end.

(** The property, on the fields [self.logger] and [self._tb_logger]; it
    gives the value read and the new [self._tb_logger].  With no logger the
    test of line 378 evaluates [self.logger.experiment] on [None] and raises
    AttributeError; with a logger its first operand is false, so the
    [return None] of line 379 is never reached. *)
Definition tb_logger (logger : option lightning_logger)
  (_tb_logger : option experiment)
  : property_result (option experiment) * option experiment :=
  match _tb_logger with
  | Some e => (Returns (Some e), _tb_logger)
  | None =>
      match logger with
      | None => (AttributeError, None)
      | Some lg =>
          let tb := logger_experiment lg in
          let tb :=
            match lg with
            | LoggerCollection _ members => first_tensorboard members tb
            | Plain _ => tb
            end in
          (Returns tb, tb)
      end
  end.

End TensorBoard.

Arguments Returns {A} a.
Arguments AttributeError {A}.
Arguments Plain {experiment} l.
Arguments LoggerCollection {experiment} own_experiment members.
Arguments is_tensorboard {experiment} p.
Arguments plain_experiment {experiment} p.
Arguments first_tensorboard {experiment} members tb_logger.
Arguments tb_logger {experiment} logger _tb_logger.

(** ** The tokenizer: [_setup_tokenizer] (lines 334-366) *)

Section TokenizerSetup.
Variables path artifact g2p tokenizer_object pad_id token_list : Type.
(** The keys [_setup_tokenizer] looks for in [cfg.text_tokenizer.g2p]. *)
Record g2p_config : Type := {
  g2p_phoneme_dict : option path;
  g2p_heteronyms : option path;
  g2p_adlr_symbol_id_mapper : option path
}.

(** [cfg.text_tokenizer], with its key "g2p" when it has one. *)
Record tokenizer_config : Type := {
  tokenizer_g2p : option g2p_config
}.

(** [self.register_artifact(name, path)] returns the registered file. *)
Variable register_artifact : string -> path -> artifact.
(** [instantiate(cfg.text_tokenizer.g2p, **g2p_kwargs)] *)
Variable instantiate_g2p : g2p_config -> dict artifact -> g2p.
(** [instantiate(cfg.text_tokenizer, **text_tokenizer_kwargs)] *)
Variable instantiate_tokenizer : tokenizer_config -> dict g2p -> tokenizer_object.
(** [isinstance(tokenizer, BaseTokenizer)], [tokenizer.pad], [tokenizer.tokens] *)
Variable is_base_tokenizer : tokenizer_object -> bool.
Variable tokenizer_pad : tokenizer_object -> pad_id.
Variable tokenizer_tokens : tokenizer_object -> token_list.

(** The fields of [self] the method writes, and the calls it makes to
    [register_artifact], oldest first. *)
Record tokenizer_fields : Type := {
  self_tokenizer : option tokenizer_object;
  text_tokenizer_pad_id : option pad_id;
  tokens : option token_list;
  registered : list (string * path)
}.

(** The call to [register_artifact] a key of the configuration causes: one
    when the key is there, none when it is not. *)
Definition registration (label : string) (value : option path)
  : list (string * path) :=
  match value with
  | Some p => [(label, p)]
  | None => []
  end.

(** [if key in cfg: kwargs[name] = self.register_artifact(label, cfg[key])] *)
Definition register_if (label : string) (value : option path)
  (calls : list (string * path)) : option artifact * list (string * path) :=
  match value with
  | Some p => (Some (register_artifact label p), (calls ++ [(label, p)])%list)
  | None => (None, calls)
  end.

Definition set_if {V : Type} (k : string) (v : option V) (d : dict V) : dict V :=
  match v with
  | Some x => dict_set k x d
  | None => d
  end.

(** Lines 335-352.  The value registered for "adlr_symbol_id_mapper" is
    bound to the local [adlr_symbol_to_id] and not used again. *)
Definition tokenizer_kwargs (cfg : tokenizer_config)
  (calls : list (string * path)) : dict g2p * list (string * path) :=
  match tokenizer_g2p cfg with
  | None => ([], calls)
  | Some g =>
      let '(phoneme_dict, calls) :=
        register_if "text_tokenizer.g2p.phoneme_dict" (g2p_phoneme_dict g) calls in
      let g2p_kwargs := set_if "phoneme_dict" phoneme_dict [] in
      let '(heteronyms, calls) :=
        register_if "text_tokenizer.g2p.heteronyms" (g2p_heteronyms g) calls in
      let g2p_kwargs := set_if "heteronyms" heteronyms g2p_kwargs in
      let '(adlr_symbol_to_id, calls) :=
        register_if "text_tokenizer.g2p.adlr_symbol_id_mapper"
          (g2p_adlr_symbol_id_mapper g) calls in
      (dict_set "g2p" (instantiate_g2p g g2p_kwargs) [], calls)
  end.

(** Lines 354-366.  In the [else] branch the names [text_tokenizer_pad_id]
    and [tokens] are bound neither in the method nor in the module: the
    first test raises NameError, and the two [raise ValueError] statements
    and the two assignments after them do not run. *)
Definition _setup_tokenizer (cfg : tokenizer_config) (self : tokenizer_fields)
  : result unit * tokenizer_fields :=
  let '(text_tokenizer_kwargs, calls) := tokenizer_kwargs cfg (registered self) in
  let tokenizer := instantiate_tokenizer cfg text_tokenizer_kwargs in
  if is_base_tokenizer tokenizer then
    (Ok tt,
     {| self_tokenizer := Some tokenizer;
        text_tokenizer_pad_id := Some (tokenizer_pad tokenizer);
        tokens := Some (tokenizer_tokens tokenizer);
        registered := calls |})
  else
    (Raise (NameError "text_tokenizer_pad_id"),
     {| self_tokenizer := Some tokenizer;
        text_tokenizer_pad_id := text_tokenizer_pad_id self;
        tokens := tokens self;
        registered := calls |}).

End TokenizerSetup.

Arguments g2p_phoneme_dict {path} g.
Arguments g2p_heteronyms {path} g.
Arguments g2p_adlr_symbol_id_mapper {path} g.
Arguments tokenizer_g2p {path} t.
Arguments self_tokenizer {path tokenizer_object pad_id token_list} t.
Arguments text_tokenizer_pad_id {path tokenizer_object pad_id token_list} t.
Arguments tokens {path tokenizer_object pad_id token_list} t.
Arguments registered {path tokenizer_object pad_id token_list} t.
Arguments registration {path} label value.
Arguments register_if {path artifact} register_artifact label value calls.
Arguments tokenizer_kwargs {path artifact g2p} register_artifact
  instantiate_g2p cfg calls.
Arguments _setup_tokenizer {path artifact g2p tokenizer_object pad_id token_list}
  register_artifact instantiate_g2p instantiate_tokenizer is_base_tokenizer
  tokenizer_pad tokenizer_tokens cfg self.

(** ** Concrete data for the setup methods *)

Module ToySetup.

(** Data sets named by a string, loaders as the pair of the data set and a
    batch size. *)
Definition loader_cfg (name : string) (manifest : option string) (batch : nat)
  : loader_config string nat :=
  {| cfg_dataset := name;
     cfg_manifest_filepath := manifest;
     cfg_dataloader_params := batch |}.

Definition no_loaders : data_loaders (string * nat) :=
  {| _train_dl := None; _validation_dl := None |}.

End ToySetup.

(** ** Properties *)

Local Open Scope list_scope.

Section MonadFacts.
Context {T : Torch} {C : collaborators}.

Lemma add_trace_nil (s : module_state) : add_trace s [] = s.
Proof.
  destruct s as [tr gs li evs]. unfold add_trace. simpl.
  now rewrite app_nil_r.
Qed.

Lemma add_trace_app (s : module_state) (a b : list event) :
  add_trace (add_trace s a) b = add_trace s (a ++ b).
Proof.
  unfold add_trace. simpl. now rewrite app_assoc.
Qed.

Lemma bind_ok {A B : Type} (m : M A) (f : A -> M B) s a s' :
  m s = (Ok a, s') -> bind m f s = f a s'.
Proof. intros H. unfold bind. now rewrite H. Qed.

Lemma bind_raise {A B : Type} (m : M A) (f : A -> M B) s e s' :
  m s = (Raise e, s') -> bind m f s = (Raise e, s').
Proof. intros H. unfold bind. now rewrite H. Qed.

End MonadFacts.

Section DictFacts.
Context {V : Type}.

Lemma eqb_false_of_neq (a b : string) : a <> b -> String.eqb a b = false.
Proof. intros H. now apply String.eqb_neq. Qed.

Lemma dict_get_set_same (k : string) (v : V) (d : dict V) :
  dict_get k (dict_set k v d) = Some v.
Proof.
  induction d as [|[k' v'] r IH]; simpl.
  - now rewrite String.eqb_refl.
  - destruct (String.eqb k' k) eqn:E; simpl; rewrite E; auto.
Qed.

Lemma dict_get_set_other (k k0 : string) (v : V) (d : dict V) :
  k0 <> k -> dict_get k0 (dict_set k v d) = dict_get k0 d.
Proof.
  intros Hne. induction d as [|[k' v'] r IH]; simpl.
  - rewrite (eqb_false_of_neq k k0); auto.
  - destruct (String.eqb k' k) eqn:E; simpl.
    + apply String.eqb_eq in E. subst k'.
      now rewrite (eqb_false_of_neq k k0) by auto.
    + destruct (String.eqb k' k0); auto.
Qed.

Lemma keys_set_present (k : string) (v : V) (d : dict V) :
  In k (keys d) -> keys (dict_set k v d) = keys d.
Proof.
  induction d as [|[k' v'] r IH]; simpl; [tauto|].
  intros Hin. destruct (String.eqb k' k) eqn:E; simpl; auto.
  f_equal. apply IH. destruct Hin as [->|]; auto.
  now rewrite String.eqb_refl in E.
Qed.

Lemma keys_set_absent (k : string) (v : V) (d : dict V) :
  ~ In k (keys d) -> keys (dict_set k v d) = (keys d ++ [k])%list.
Proof.
  induction d as [|[k' v'] r IH]; simpl; auto.
  intros Hnin. destruct (String.eqb k' k) eqn:E; simpl.
  - apply String.eqb_eq in E. tauto.
  - f_equal. apply IH. tauto.
Qed.

Lemma existsb_eqb_In (k : string) (l : list string) :
  existsb (String.eqb k) l = true <-> In k l.
Proof.
  rewrite existsb_exists. split.
  - intros [x [Hin E]]. apply String.eqb_eq in E. now subst.
  - intros Hin. exists k. split; auto. apply String.eqb_refl.
Qed.

Lemma dict_wf_NoDup (d : dict V) : dict_wf d = true <-> NoDup (keys d).
Proof.
  induction d as [|[k v] r IH]; simpl.
  - split; auto. constructor.
  - rewrite andb_true_iff, negb_true_iff, IH. split.
    + intros [Hn Hr]. constructor; auto.
      intros Hin. apply existsb_eqb_In in Hin. congruence.
    + intros H. inversion H as [|? ? Hn Hr]; subst. split; auto.
      destruct (existsb (String.eqb k) (keys r)) eqn:E; auto.
      apply existsb_eqb_In in E. tauto.
Qed.

Lemma dict_wf_set (k : string) (v : V) (d : dict V) :
  dict_wf d = true -> dict_wf (dict_set k v d) = true.
Proof.
  rewrite !dict_wf_NoDup. intros Hnd.
  destruct (in_dec string_dec k (keys d)) as [Hin|Hnin].
  - now rewrite keys_set_present.
  - rewrite keys_set_absent by auto.
    apply NoDup_app; auto.
    + constructor; [simpl; tauto | constructor].
    + intros x Hx [<-|[]]. tauto.
Qed.

(** In a dict, looking up the key of an entry finds that entry. *)
Lemma dict_get_In (k : string) (v : V) (d : dict V) :
  dict_wf d = true -> In (k, v) d -> dict_get k d = Some v.
Proof.
  induction d as [|[k' v'] r IH]; simpl; [tauto|].
  rewrite andb_true_iff, negb_true_iff. intros [Hn Hr] [E|Hin].
  - inversion E; subst. now rewrite String.eqb_refl.
  - destruct (String.eqb k' k) eqn:E; auto.
    apply String.eqb_eq in E. subst k'.
    assert (In k (keys r)) as Hk by (apply (in_map fst _ _ Hin)).
    apply existsb_eqb_In in Hk. congruence.
Qed.

Lemma dict_get_Some_In (k : string) (v : V) (d : dict V) :
  dict_get k d = Some v -> In (k, v) d.
Proof.
  induction d as [|[k' v'] r IH]; simpl; [discriminate|].
  destruct (String.eqb k' k) eqn:E.
  - apply String.eqb_eq in E. intros [= ->]. subst. now left.
  - intros H. right. auto.
Qed.

End DictFacts.

Section BatchAdapter.
Context {T : Torch} {C : collaborators}.

(** Peel the thirteen mandatory tensors off a batch whose length is known
    to be at least 13. *)
Ltac peel bd H b := destruct bd as [|b bd]; [simpl in H; lia|].
Ltac peel_batch bd H :=
  peel bd H ipattern:(b0); peel bd H ipattern:(b1); peel bd H ipattern:(b2);
  peel bd H ipattern:(b3); peel bd H ipattern:(b4); peel bd H ipattern:(b5);
  peel bd H ipattern:(b6); peel bd H ipattern:(b7); peel bd H ipattern:(b8);
  peel bd H ipattern:(b9); peel bd H ipattern:(b10); peel bd H ipattern:(b11);
  peel bd H ipattern:(b12).

(** The adapter succeeds on an accepted batch without touching [self], and
    the arguments both steps pass to the network are read off the record. *)
Lemma batch_dict_args (batch_data : list tensor) :
  batch_ok batch_data ->
  exists batch a,
    (forall s, batch_dict batch_data s = (Ok batch, s)) /\
    (forall flag s, forward_args batch flag s = (Ok (with_flag a flag), s)) /\
    args_from batch_data a /\
    dict_get "speaker_id" batch = Some (arg_speaker_ids a).
Proof.
  intros [Hlen Hsize]. peel_batch batch_data Hlen.
  destruct batch_data as [|spk rest].
  - destruct Hsize as (t & n & Ht & Hn); [simpl; lia|].
    simpl in Ht. injection Ht as <-.
    eexists.
    exists {| arg_mel := b4; arg_speaker_ids := int_tensor (repeat 0 n);
              arg_text := b2; arg_in_lens := b3; arg_out_lens := b5;
              arg_binarize_attention := false; arg_attn_prior := b6;
              arg_f0 := b7; arg_energy_avg := b11; arg_voiced_mask := b9;
              arg_p_voiced := b10 |}.
    split; [|split; [|split]].
    + intros s. unfold batch_dict, bind, py_index, or_raise. simpl.
      rewrite Hn. reflexivity.
    + intros flag s. reflexivity.
    + repeat split.
    + reflexivity.
  - eexists.
    exists {| arg_mel := b4; arg_speaker_ids := spk;
              arg_text := b2; arg_in_lens := b3; arg_out_lens := b5;
              arg_binarize_attention := false; arg_attn_prior := b6;
              arg_f0 := b7; arg_energy_avg := b11; arg_voiced_mask := b9;
              arg_p_voiced := b10 |}.
    split; [|split; [|split]].
    + intros s. reflexivity.
    + intros flag s. reflexivity.
    + repeat split.
    + reflexivity.
Qed.

(** C5: on a sequence of at least 13 tensors (whose text-length tensor has a
    batch dimension when the speaker id has to be made up) [batch_dict]
    returns, without touching [self], a record whose 14 keys are the field
    names of the data model in their order and whose first 13 values are the
    first 13 tensors of the sequence; with fewer than 14 tensors the speaker
    id is the tensor of [n] zeros, [n] the size of dimension 0 of the
    text-length tensor, and with a 14th tensor the speaker id is that
    tensor. *)
Theorem batch_dict_record (batch_data : list tensor) (s : module_state) :
  batch_ok batch_data ->
  exists record,
    batch_dict batch_data s = (Ok record, s) /\
    keys record = field_names /\
    map snd (firstn 13 record) = firstn 13 batch_data /\
    ((List.length batch_data < 14)%nat ->
     exists text_lens n,
       dict_get "text_lens" record = Some text_lens /\
       size0 text_lens = Some n /\
       dict_get "speaker_id" record = Some (int_tensor (repeat 0 n)) /\
       List.length (repeat 0 n) = n /\
       Forall (fun z => z = 0) (repeat 0 n)) /\
    ((14 <= List.length batch_data)%nat ->
     dict_get "speaker_id" record = nth_error batch_data 13).
Proof.
  intros [Hlen Hsize]. peel_batch batch_data Hlen.
  destruct batch_data as [|spk rest].
  - destruct Hsize as (t & n & Ht & Hn); [simpl; lia|].
    simpl in Ht. injection Ht as <-.
    eexists. split; [|split; [|split; [|split]]].
    + unfold batch_dict, bind, py_index, or_raise. simpl.
      rewrite Hn. reflexivity.
    + reflexivity.
    + reflexivity.
    + intros _. exists b3, n. repeat split; auto.
      * apply repeat_length.
      * apply Forall_forall. intros z Hz. now apply repeat_spec in Hz.
    + simpl. lia.
  - eexists. split; [|split; [|split; [|split]]].
    + reflexivity.
    + reflexivity.
    + reflexivity.
    + simpl. lia.
    + intros _. reflexivity.
Qed.

(** Fewer than 13 tensors: the adapter raises IndexError. *)
Lemma batch_dict_short (batch_data : list tensor) (s : module_state) :
  (List.length batch_data < 13)%nat ->
  exists e, batch_dict batch_data s = (Raise e, s).
Proof.
  intros Hlen.
  assert (Hlt : (List.length batch_data <? 14)%nat = true)
    by (apply Nat.ltb_lt; lia).
  unfold batch_dict. rewrite Hlt.
  do 13 (destruct batch_data as [|? batch_data];
         [unfold bind, py_index, or_raise; simpl;
          repeat (match goal with
                  | |- context [size0 ?t] => destruct (size0 t)
                  end; simpl);
          eexists; reflexivity|]).
  simpl in Hlen. lia.
Qed.

End BatchAdapter.

Section LossAggregator.
Context {T : Torch} {C : collaborators}.

(** The loop of lines 148-151 started from any value of [loss]. *)
Lemma fold_accumulate (loss_outputs : dict (tensor * pyfloat)) :
  forall acc,
    fold_left accumulate loss_outputs acc =
    match acc with
    | None => sum_positive_terms loss_outputs
    | Some a =>
        Some (fold_left t_add (map weighted (positive_terms loss_outputs)) a)
    end.
Proof.
  induction loss_outputs as [|[k [v w]] r IH]; intros acc.
  - destruct acc; reflexivity.
  - cbn [fold_left accumulate]. rewrite IH.
    unfold sum_positive_terms, positive_terms. cbn [filter snd fst].
    destruct (float_pos w) eqn:Hw.
    + destruct acc; reflexivity.
    + destruct acc; reflexivity.
Qed.

Lemma weighted_total_sum (loss_outputs : dict (tensor * pyfloat)) :
  weighted_total loss_outputs = sum_positive_terms loss_outputs.
Proof. unfold weighted_total. now rewrite fold_accumulate. Qed.

(** The total is undefined exactly when no term has a positive weight. *)
Lemma weighted_total_None (loss_outputs : dict (tensor * pyfloat)) :
  weighted_total loss_outputs = None <->
  forall k v w, In (k, (v, w)) loss_outputs -> float_pos w = false.
Proof.
  rewrite weighted_total_sum. unfold sum_positive_terms, positive_terms.
  split.
  - intros H k v w Hin.
    destruct (float_pos w) eqn:Hw; auto.
    assert (Hf : In (k, (v, w))
                   (filter (fun term => float_pos (snd (snd term))) loss_outputs))
      by (apply filter_In; auto).
    destruct (filter _ loss_outputs); [destruct Hf | discriminate].
  - intros H.
    destruct (filter _ loss_outputs) as [|[k [v w]] r] eqn:E; auto.
    assert (Hf : In (k, (v, w))
                   (filter (fun term => float_pos (snd (snd term))) loss_outputs))
      by (rewrite E; now left).
    apply filter_In in Hf. destruct Hf as [Hin Hw]. simpl in Hw.
    rewrite (H _ _ _ Hin) in Hw. discriminate.
Qed.

(** A term whose weight is not positive can be dropped from the mapping. *)
Lemma weighted_total_skip l1 k v w l2 :
  float_pos w = false ->
  weighted_total (l1 ++ (k, (v, w)) :: l2) = weighted_total (l1 ++ l2).
Proof.
  intros Hw. rewrite !weighted_total_sum.
  unfold sum_positive_terms, positive_terms.
  rewrite !filter_app. cbn [filter snd]. now rewrite Hw.
Qed.

(** The log loop of [training_step] over a suffix of the mapping. *)
Lemma for_each_train_logs (d : dict (tensor * pyfloat)) :
  dict_wf d = true ->
  forall l s,
    incl l d ->
    for_each
      (fun item : string * (tensor * pyfloat) =>
         let '(k, _) := item in
         entry <- py_getitem d k ;;
         emit (EvLog ("train/" ++ k)%string (fst entry)))
      l s
    = (Ok tt, add_trace s (logged "train/" l)).
Proof.
  intros Hwf. induction l as [|[k [v w]] r IH]; intros s Hincl.
  - simpl. unfold ret. now rewrite add_trace_nil.
  - cbn [for_each]. unfold bind at 1.
    assert (Hget : dict_get k d = Some (v, w)).
    { apply dict_get_In; auto. apply Hincl. now left. }
    unfold bind at 1, py_getitem, or_raise. rewrite Hget.
    unfold ret, emit. cbn [fst].
    rewrite IH by (intros x Hx; apply Hincl; now right).
    now rewrite add_trace_app.
Qed.

End LossAggregator.

Section Steps.
Context {T : Torch} {C : collaborators}.
Variable cfg : config.

(** Lines 153-157 and 207-215 on a defined and on an undefined total. *)
Lemma add_binarization_loss_some active args total s :
  add_binarization_loss active (net_forward args) (Some total) s =
  (Ok (if active then kl_of args else zeros_like total,
       if active then t_add total (kl_of args) else total),
   add_trace s (if active then [kl_event args] else [])).
Proof.
  destruct active; simpl.
  - reflexivity.
  - unfold bind, ret. simpl. now rewrite add_trace_nil.
Qed.

Lemma add_binarization_loss_none active args s :
  add_binarization_loss active (net_forward args) None s =
  (Raise TypeError, add_trace s (if active then [kl_event args] else [])).
Proof.
  destruct active; simpl.
  - reflexivity.
  - unfold bind, raise. simpl. now rewrite add_trace_nil.
Qed.

(** What one run of [training_step] returns and does. *)
Lemma training_step_run (batch_data : list tensor) (batch_idx : Z)
  (s : module_state) :
  batch_ok batch_data ->
  exists a,
    args_from batch_data a /\
    let binarize := training_step_binarize cfg (global_step s) in
    let args := with_flag a binarize in
    let active := training_step_kl_test cfg binarize (global_step s) in
    training_step cfg batch_data batch_idx s =
    match weighted_total (losses_of args) with
    | None =>
        (Raise TypeError,
         add_trace s (EvForward args :: if active then [kl_event args] else []))
    | Some total =>
        (Ok (if active then t_add total (kl_of args) else total),
         add_trace s
           (EvForward args
            :: (if active then [kl_event args] else [])
            ++ logged "train/"
                 (training_record
                    (if active then kl_of args else zeros_like total)
                    (losses_of args))))
    end.
Proof.
  intros Hok.
  destruct (batch_dict_args batch_data Hok) as (batch & a & Hb & Hf & Ha & _).
  exists a. split; [exact Ha|].
  intros binarize args active.
  unfold training_step.
  rewrite (bind_ok _ _ _ _ _ (Hb s)).
  unfold get_self at 1. unfold bind at 1.
  rewrite (bind_ok _ _ _ _ _ (Hf binarize s)).
  fold args. unfold emit at 1. unfold bind at 1.
  fold (losses_of args). fold active.
  destruct (weighted_total (losses_of args)) as [total|].
  - rewrite (bind_ok _ _ _ _ _ (add_binarization_loss_some active args total _)).
    unfold bind at 1.
    rewrite for_each_train_logs.
    + unfold ret. rewrite !add_trace_app. reflexivity.
    + unfold training_record. apply dict_wf_set. apply criterion_wf.
    + apply incl_refl.
  - rewrite (bind_raise _ _ _ _ _ (add_binarization_loss_none active args _)).
    rewrite add_trace_app. reflexivity.
Qed.

(** What one run of [validation_step] returns and does. *)
Lemma validation_step_run (batch_data : list tensor) (batch_idx : Z)
  (s : module_state) :
  batch_ok batch_data ->
  exists a,
    args_from batch_data a /\
    let binarize := validation_step_binarize cfg (global_step s) in
    let args := with_flag a true in
    let active := validation_step_kl_test cfg binarize (global_step s) in
    let out := net_forward args in
    validation_step cfg batch_data batch_idx s =
    (match weighted_total (losses_of args) with
     | None => Raise TypeError
     | Some total =>
         Ok {| val_loss_outputs :=
                 validation_record
                   (if active then kl_of args else zeros_like total)
                   (losses_of args);
               val_attn :=
                 if Z.eqb batch_idx 0 then Some (out_attn out) else None;
               val_attn_soft :=
                 if Z.eqb batch_idx 0 then Some (out_attn_soft out) else None;
               val_audiopaths :=
                 if Z.eqb batch_idx 0 then Some "audio_1"%string else None |}
     end,
     add_trace s (EvForward args :: if active then [kl_event args] else [])).
Proof.
  intros Hok.
  destruct (batch_dict_args batch_data Hok) as (batch & a & Hb & Hf & Ha & _).
  exists a. split; [exact Ha|].
  intros binarize args active out.
  unfold validation_step.
  rewrite (bind_ok _ _ _ _ _ (Hb s)).
  unfold get_self at 1. unfold bind at 1.
  rewrite (bind_ok _ _ _ _ _ (Hf true s)).
  fold args. unfold emit at 1. unfold bind at 1.
  fold (losses_of args). fold binarize. fold active.
  destruct (weighted_total (losses_of args)) as [total|].
  - rewrite (bind_ok _ _ _ _ _ (add_binarization_loss_some active args total _)).
    unfold ret. rewrite !add_trace_app. reflexivity.
  - rewrite (bind_raise _ _ _ _ _ (add_binarization_loss_none active args _)).
    rewrite add_trace_app. reflexivity.
Qed.

End Steps.

Section ValidationEpochEnd.
Context {T : Torch} {C : collaborators}.

Lemma logged_keys_app (a b : list event) :
  logged_keys (a ++ b) = logged_keys a ++ logged_keys b.
Proof.
  induction a as [|e a IH]; simpl; auto.
  destruct e; simpl; auto. now rewrite IH.
Qed.

Lemma logged_keys_logged (stage : string) (d : dict (tensor * pyfloat)) :
  logged_keys (logged stage d) = map (fun k => (stage ++ k)%string) (keys d).
Proof.
  induction d as [|[k [v w]] r IH]; simpl; auto. now rewrite IH.
Qed.

Lemma keys_lift (lo : dict (tensor * pyfloat)) :
  keys (map (fun item : string * (tensor * pyfloat) =>
               (fst item, Weighted (fst (snd item)) (snd (snd item)))) lo)
  = keys lo.
Proof. unfold keys. rewrite map_map. reflexivity. Qed.

Lemma dict_wf_keys {V W : Type} (d : dict V) (d' : dict W) :
  keys d = keys d' -> dict_wf d = dict_wf d'.
Proof.
  revert d'. induction d as [|[k v] r IH]; intros [|[k' v'] r']; simpl;
    try discriminate; auto.
  intros [= -> Hr]. unfold keys in *. rewrite Hr. f_equal. now apply IH.
Qed.

Lemma validation_record_wf bl (lo : dict (tensor * pyfloat)) :
  dict_wf lo = true -> dict_wf (validation_record bl lo) = true.
Proof.
  intros Hwf. unfold validation_record. apply dict_wf_set.
  rewrite <- Hwf. apply dict_wf_keys. apply keys_lift.
Qed.

(** In the record of [validation_step] the only tensor without a weight
    sits under the key of the binarization term. *)
Lemma validation_record_bare bl (lo : dict (tensor * pyfloat)) k t :
  In (k, Bare t) (validation_record bl lo) -> k = "binarization_loss"%string.
Proof.
  unfold validation_record.
  induction lo as [|[k' [v w]] r IH]; simpl.
  - intros [[= <- _]|[]]. reflexivity.
  - destruct (String.eqb k' "binarization_loss") eqn:E; simpl.
    + apply String.eqb_eq in E. subst k'.
      intros [[= <- _]|Hin]; auto.
      apply in_map_iff in Hin. destruct Hin as [[k2 [v2 w2]] [[= _ H] _]].
    + intros [[= _ H]|Hin]; auto.
Qed.

Lemma validation_logged_cons k e (r : dict loss_entry) :
  validation_logged ((k, e) :: r)
  = match e with
    | Weighted v _ =>
        if String.eqb k "binarization_loss" then []
        else [EvLog ("val/" ++ k)%string v]
    | Bare _ => []
    end ++ validation_logged r.
Proof. reflexivity. Qed.

Lemma without_binarization_cons k vw (r : dict (tensor * pyfloat)) :
  without_binarization ((k, vw) :: r)
  = if String.eqb k "binarization_loss" then without_binarization r
    else (k, vw) :: without_binarization r.
Proof.
  unfold without_binarization. simpl.
  now destruct (String.eqb k "binarization_loss").
Qed.

Lemma validation_logged_lift (lo : dict (tensor * pyfloat)) :
  validation_logged
    (map (fun item : string * (tensor * pyfloat) =>
            (fst item, Weighted (fst (snd item)) (snd (snd item)))) lo)
  = logged "val/" (without_binarization lo).
Proof.
  induction lo as [|[k [v w]] r IH]; auto.
  cbn [map fst snd].
  rewrite validation_logged_cons, without_binarization_cons, IH.
  now destruct (String.eqb k "binarization_loss").
Qed.

Lemma validation_logged_record bl (lo : dict (tensor * pyfloat)) :
  validation_logged (validation_record bl lo)
  = logged "val/" (without_binarization lo).
Proof.
  unfold validation_record.
  induction lo as [|[k [v w]] r IH]; auto.
  cbn [map fst snd dict_set]. rewrite without_binarization_cons.
  destruct (String.eqb k "binarization_loss") eqn:E;
    rewrite validation_logged_cons.
  - now rewrite validation_logged_lift.
  - now rewrite E, IH.
Qed.

(** The loop of lines 229-231 over a suffix of a mapping whose weightless
    entries all sit under the excluded key: it never indexes a tensor. *)
Lemma log_validation_losses_run (d : dict loss_entry) :
  dict_wf d = true ->
  (forall k t, In (k, Bare t) d -> k = "binarization_loss"%string) ->
  forall l s,
    incl l d ->
    for_each
      (fun item : string * loss_entry =>
         let '(k, _) := item in
         if negb (String.eqb k "binarization_loss") then
           entry <- py_getitem d k ;;
           v <- entry_index0 entry ;;
           emit (EvLog ("val/" ++ k)%string v)
         else ret tt)
      l s
    = (Ok tt, add_trace s (validation_logged l)).
Proof.
  intros Hwf Hbare. induction l as [|[k e] r IH]; intros s Hincl.
  - simpl. unfold ret. now rewrite add_trace_nil.
  - assert (Hin : In (k, e) d) by (apply Hincl; now left).
    assert (Hr : incl r d) by (intros x Hx; apply Hincl; now right).
    cbn [for_each]. unfold bind at 1.
    rewrite validation_logged_cons.
    destruct (String.eqb k "binarization_loss") eqn:E; cbn [negb].
    + unfold ret at 1. refine (eq_trans (IH _ Hr) _).
      destruct e; reflexivity.
    + destruct e as [v w|t].
      * unfold bind at 1, py_getitem, or_raise.
        rewrite (dict_get_In _ _ _ Hwf Hin).
        unfold ret at 1. unfold entry_index0, bind at 1.
        unfold ret at 1. unfold emit at 1.
        refine (eq_trans (IH _ Hr) _). now rewrite add_trace_app.
      * apply Hbare in Hin. subst k. discriminate.
Qed.

(** The image part writes nothing to the metrics sink and leaves the step
    counter and the mode alone. *)
Lemma add_attention_images_trace (first : validation_output) (s : module_state) :
  exists imgs,
    global_step (snd (add_attention_images first s)) = global_step s /\
    trace (snd (add_attention_images first s)) = trace s ++ imgs /\
    forallb is_image imgs = true /\
    logged_keys imgs = [].
Proof.
  unfold add_attention_images, first_map, bind, or_raise, get_self, emit,
    set_log_train_images, ret, raise.
  destruct (val_attn first) as [a|]; simpl;
    [destruct (index0 a) as [a0|]; simpl;
     [destruct (index0 a0) as [a00|]; simpl;
      [destruct (val_attn_soft first) as [b|]; simpl;
       [destruct (index0 b) as [b0|]; simpl;
        [destruct (index0 b0) as [b00|]; simpl|]|]|]|]|];
    try (exists []; rewrite app_nil_r; repeat split; reflexivity).
  - eexists [_; _]. rewrite <- app_assoc. repeat split.
  - eexists [_]. repeat split.
  - eexists [_]. repeat split.
  - eexists [_]. repeat split.
Qed.

(** [validation_epoch_end] on the results of an epoch whose first record
    comes from [validation_step]: the sink receives the (value, weight)
    terms of the first batch under "val/", the binarization term excepted. *)
Lemma validation_epoch_end_logs bl (lo : dict (tensor * pyfloat))
  (first : validation_output) (rest : list validation_output)
  (s : module_state) :
  dict_wf lo = true ->
  val_loss_outputs first = validation_record bl lo ->
  exists imgs,
    trace (snd (validation_epoch_end (first :: rest) s))
    = trace s ++ logged "val/" (without_binarization lo) ++ imgs /\
    forallb is_image imgs = true /\
    logged_keys imgs = [].
Proof.
  intros Hwf Hrec.
  unfold validation_epoch_end. simpl nth_error. unfold or_raise.
  unfold bind at 1. unfold ret at 1.
  unfold bind at 1. unfold log_validation_losses.
  rewrite log_validation_losses_run.
  - destruct (add_attention_images_trace first
                (add_trace s (validation_logged (val_loss_outputs first))))
      as (imgs & _ & Htr & Himg & Hkeys).
    exists imgs. rewrite Htr. simpl trace.
    rewrite Hrec, validation_logged_record, <- app_assoc. auto.
  - rewrite Hrec. now apply validation_record_wf.
  - rewrite Hrec. apply validation_record_bare.
  - apply incl_refl.
Qed.

End ValidationEpochEnd.

Section PhaseGate.
Context {T : Torch} {C : collaborators}.
Variable cfg : config.

Lemma geb_true (a b : Z) : (a >=? b) = true <-> b <= a.
Proof. rewrite Z.geb_leb. apply Z.leb_le. Qed.

Lemma geb_false (a b : Z) : (a >=? b) = false <-> a < b.
Proof. rewrite Z.geb_leb. apply Z.leb_gt. Qed.

(** The test of [validation_step] is the gate of the specification. *)
Lemma validation_step_kl_test_spec (binarize : bool) (gs : Z) :
  validation_step_kl_test cfg binarize gs = true <->
  binarize = true /\ 0 <= kl_loss_start_iter cfg /\ kl_loss_start_iter cfg <= gs.
Proof.
  unfold validation_step_kl_test.
  rewrite !andb_true_iff, !geb_true. tauto.
Qed.

(** The test of [training_step] does not look at the sign of the
    threshold: a negative threshold lets every step of the binarization
    phase through. *)
Lemma training_step_kl_test_spec (binarize : bool) (gs : Z) :
  training_step_kl_test cfg binarize gs = true <->
  binarize = true /\ kl_loss_start_iter cfg <= gs.
Proof.
  unfold training_step_kl_test.
  rewrite !andb_true_iff, !geb_true. tauto.
Qed.


(** C4: [validation_step] calls the network once, with
    [binarize_attention=True] whatever the computed flag is, while the
    binarization-KL module is called exactly when
    [binarize and kl_loss_start_iter >= 0 and global_step >= kl_loss_start_iter]
    holds for the computed flag; when the weighted total is defined the step
    returns, and the binarization entry of its record is the KL loss or the
    zero placeholder accordingly. *)
Theorem validation_step_hard_alignment (batch_data : list tensor)
  (batch_idx : Z) (s : module_state) :
  batch_ok batch_data ->
  exists args,
    arg_binarize_attention args = true /\
    let gs := global_step s in
    let start := binarization_start_iter cfg in
    let binarize := (start >=? 0) && (gs >=? start) in
    let kl_active :=
      binarize && (kl_loss_start_iter cfg >=? 0)
      && (gs >=? kl_loss_start_iter cfg) in
    trace (snd (validation_step cfg batch_data batch_idx s))
    = trace s ++ EvForward args :: (if kl_active then [kl_event args] else []) /\
    forall total,
      weighted_total (losses_of args) = Some total ->
      exists r,
        fst (validation_step cfg batch_data batch_idx s) = Ok r /\
        dict_get "binarization_loss" (val_loss_outputs r)
        = Some (Bare (if kl_active then kl_of args else zeros_like total)).
Proof.
  intros Hok.
  destruct (validation_step_run cfg batch_data batch_idx s Hok)
    as (a & _ & Hrun).
  cbv zeta in Hrun. exists (with_flag a true). split; [reflexivity|].
  intros gs start binarize kl_active. rewrite Hrun. split.
  - reflexivity.
  - intros total Htot. rewrite Htot. eexists. split; [reflexivity|].
    simpl. unfold validation_record. apply dict_get_set_same.
Qed.

End PhaseGate.

Section LossAssembly.
Context {T : Torch} {C : collaborators}.
Variable cfg : config.

Lemma in_logged (stage k : string) v w (d : dict (tensor * pyfloat)) :
  In (k, (v, w)) d -> In (EvLog (stage ++ k)%string v) (logged stage d).
Proof.
  intros Hin. unfold logged.
  apply (in_map (fun item : string * (tensor * pyfloat) =>
                   EvLog (stage ++ fst item)%string (fst (snd item))) _ _ Hin).
Qed.

Lemma in_training_record bl (lo : dict (tensor * pyfloat)) k v w :
  dict_wf lo = true ->
  In (k, (v, w)) lo ->
  k <> "binarization_loss"%string ->
  In (k, (v, w)) (training_record bl lo).
Proof.
  intros Hwf Hin Hne. apply dict_get_Some_In. unfold training_record.
  rewrite dict_get_set_other by auto. now apply dict_get_In.
Qed.

Lemma in_without_binarization (lo : dict (tensor * pyfloat)) k vw :
  In (k, vw) lo ->
  k <> "binarization_loss"%string ->
  In (k, vw) (without_binarization lo).
Proof.
  intros Hin Hne. apply filter_In. split; auto.
  simpl. now rewrite eqb_false_of_neq.
Qed.

(** C2: the total both steps compute is [Σ value_i * weight_i] over the
    terms with [weight_i > 0] and no others (a term whose weight is not
    positive can be removed without changing it); when that sum is defined,
    [training_step] returns it (plus the binarization-KL loss when that is
    active) and writes every term of the loss module to the sink, whatever
    its weight; [validation_step] keeps every term in the record it returns
    and [validation_epoch_end] writes every term of the first record. *)
Theorem aggregate_loss_weighted_sum (batch_data : list tensor)
  (batch_idx : Z) (s : module_state) :
  batch_ok batch_data ->
  (forall lo, weighted_total lo = sum_positive_terms lo) /\
  (forall l1 k v w l2,
      float_pos w = false ->
      weighted_total (l1 ++ (k, (v, w)) :: l2) = weighted_total (l1 ++ l2)) /\
  (exists args,
      let lo := losses_of args in
      let active :=
        training_step_kl_test cfg (training_step_binarize cfg (global_step s))
          (global_step s) in
      forall total,
        sum_positive_terms lo = Some total ->
        exists s',
          training_step cfg batch_data batch_idx s
          = (Ok (if active then t_add total (kl_of args) else total), s') /\
          forall k v w,
            In (k, (v, w)) lo ->
            k <> "binarization_loss"%string ->
            In (EvLog ("train/" ++ k)%string v) (trace s')) /\
  (exists args,
      let lo := losses_of args in
      forall total,
        sum_positive_terms lo = Some total ->
        exists r s',
          validation_step cfg batch_data batch_idx s = (Ok r, s') /\
          forall k v w,
            In (k, (v, w)) lo ->
            k <> "binarization_loss"%string ->
            dict_get k (val_loss_outputs r) = Some (Weighted v w) /\
            forall rest s2,
              In (EvLog ("val/" ++ k)%string v)
                 (trace (snd (validation_epoch_end (r :: rest) s2)))).
Proof.
  intros Hok. split; [exact weighted_total_sum|].
  split; [exact weighted_total_skip|]. split.
  - destruct (training_step_run cfg batch_data batch_idx s Hok)
      as (a & _ & Hrun).
    cbv zeta in Hrun.
    exists (with_flag a (training_step_binarize cfg (global_step s))).
    intros lo active total Htot. fold lo active in Hrun.
    rewrite weighted_total_sum, Htot in Hrun.
    eexists. split; [exact Hrun|].
    intros k v w Hin Hne. cbn [trace add_trace].
    apply in_or_app. right. apply in_cons. apply in_or_app. right.
    apply in_logged with (w := w).
    apply in_training_record; auto. apply criterion_wf.
  - destruct (validation_step_run cfg batch_data batch_idx s Hok)
      as (a & _ & Hrun).
    cbv zeta in Hrun. exists (with_flag a true).
    intros lo total Htot. fold lo in Hrun.
    rewrite weighted_total_sum, Htot in Hrun.
    eexists. eexists. split; [exact Hrun|].
    intros k v w Hin Hne. cbn [val_loss_outputs]. split.
    + unfold validation_record. rewrite dict_get_set_other by auto.
      apply dict_get_In.
      * rewrite <- (criterion_wf (net_forward (with_flag a true))
                      (arg_in_lens (with_flag a true))
                      (arg_out_lens (with_flag a true))).
        apply dict_wf_keys, keys_lift.
      * apply (in_map (fun item : string * (tensor * pyfloat) =>
                         (fst item, Weighted (fst (snd item)) (snd (snd item))))
                 _ _ Hin).
    + intros rest s2.
      match goal with
      | |- In _ (trace (snd (validation_epoch_end (?r :: _) _))) =>
          destruct (validation_epoch_end_logs _ lo r rest s2
                      (criterion_wf _ _ _) eq_refl)
            as (imgs & Htr & _)
      end.
      rewrite Htr. apply in_or_app. right. apply in_or_app. left.
      apply in_logged with (w := w). now apply in_without_binarization.
Qed.

End LossAssembly.

Section LossRecords.
Context {T : Torch} {C : collaborators}.
Variable cfg : config.

Lemma binarization_not_logged_after_validation (lo : dict (tensor * pyfloat)) :
  ~ In "val/binarization_loss"%string
       (logged_keys (logged "val/" (without_binarization lo))).
Proof.
  rewrite logged_keys_logged. intros Hin.
  apply in_map_iff in Hin. destruct Hin as (k & Hk & Hin).
  simpl in Hk. injection Hk as ->.
  unfold keys in Hin. apply in_map_iff in Hin.
  destruct Hin as ([k vw] & Hfst & Hin). simpl in Hfst. subst k.
  apply filter_In in Hin. destruct Hin as [_ Hneq].
  simpl in Hneq. discriminate.
Qed.

Lemma binarization_in_validation_record bl (lo : dict (tensor * pyfloat)) :
  In "binarization_loss"%string (keys (validation_record bl lo)).
Proof.
  assert (H : dict_get "binarization_loss" (validation_record bl lo)
              = Some (Bare bl)) by apply dict_get_set_same.
  apply dict_get_Some_In in H.
  apply (in_map fst _ _ H).
Qed.

(** C6, as the code has it: when the weighted total is defined,
    [training_step] writes every term of its mapping, the binarization term
    included, to the sink under "train/"; [validation_step] writes nothing
    to the sink, and [validation_epoch_end] writes under "val/" the terms of
    the first record other than the binarization term, which is in the
    record but is never written. *)
Theorem loss_terms_logged_by_stage (batch_data : list tensor)
  (batch_idx : Z) (s : module_state) :
  batch_ok batch_data ->
  (exists args,
      forall total,
        weighted_total (losses_of args) = Some total ->
        exists loss s' pre bl,
          training_step cfg batch_data batch_idx s = (Ok loss, s') /\
          trace s'
          = trace s ++ pre
            ++ logged "train/" (training_record bl (losses_of args)) /\
          logged_keys pre = [] /\
          dict_get "binarization_loss" (training_record bl (losses_of args))
          = Some (bl, float_one)) /\
  (exists args,
      forall total,
        weighted_total (losses_of args) = Some total ->
        exists r s',
          validation_step cfg batch_data batch_idx s = (Ok r, s') /\
          logged_keys (trace s') = logged_keys (trace s) /\
          In "binarization_loss"%string (keys (val_loss_outputs r)) /\
          forall rest s2,
          exists imgs,
            trace (snd (validation_epoch_end (r :: rest) s2))
            = trace s2
              ++ logged "val/" (without_binarization (losses_of args))
              ++ imgs /\
            logged_keys imgs = [] /\
            ~ In "val/binarization_loss"%string
                 (logged_keys
                    (logged "val/" (without_binarization (losses_of args))
                     ++ imgs))).
Proof.
  intros Hok. split.
  - destruct (training_step_run cfg batch_data batch_idx s Hok)
      as (a & _ & Hrun).
    cbv zeta in Hrun. eexists. intros total Htot.
    rewrite Htot in Hrun.
    eexists. eexists.
    exists (EvForward (with_flag a (training_step_binarize cfg (global_step s)))
            :: (if training_step_kl_test cfg
                     (training_step_binarize cfg (global_step s))
                     (global_step s)
                then [kl_event
                        (with_flag a
                           (training_step_binarize cfg (global_step s)))]
                else [])).
    eexists. split; [exact Hrun|]. split; [|split].
    + cbn [trace add_trace]. now rewrite <- app_comm_cons.
    + now destruct (training_step_kl_test _ _ _).
    + apply dict_get_set_same.
  - destruct (validation_step_run cfg batch_data batch_idx s Hok)
      as (a & _ & Hrun).
    cbv zeta in Hrun. exists (with_flag a true). intros total Htot.
    rewrite Htot in Hrun.
    eexists. eexists. split; [exact Hrun|]. split; [|split].
    + cbn [trace add_trace]. rewrite logged_keys_app. cbn [logged_keys].
      destruct (validation_step_kl_test _ _ _); simpl; now rewrite app_nil_r.
    + apply binarization_in_validation_record.
    + intros rest s2.
      match goal with
      | |- exists _, trace (snd (validation_epoch_end (?r :: _) _)) = _ /\ _ =>
          destruct (validation_epoch_end_logs _
                      (losses_of (with_flag a true)) r rest s2
                      (criterion_wf _ _ _) eq_refl)
            as (imgs & Htr & _ & Hkeys)
      end.
      exists imgs. split; [exact Htr|]. split; [exact Hkeys|].
      rewrite logged_keys_app, Hkeys, app_nil_r.
      apply binarization_not_logged_after_validation.
Qed.

(** C9, as the code has it: the total is undefined exactly when no term has
    a positive weight, and nothing guards that case: both steps call the
    network and then raise TypeError where the binarization term is put
    together; they return when some term has a positive weight. *)
Theorem undefined_total_raises (batch_data : list tensor)
  (batch_idx : Z) (s : module_state) :
  batch_ok batch_data ->
  (forall lo,
      weighted_total lo = None <->
      forall k v w, In (k, (v, w)) lo -> float_pos w = false) /\
  (exists args,
      In (EvForward args)
         (trace (snd (training_step cfg batch_data batch_idx s))) /\
      ((forall k v w, In (k, (v, w)) (losses_of args) -> float_pos w = false) ->
       fst (training_step cfg batch_data batch_idx s) = Raise TypeError) /\
      ((exists k v w, In (k, (v, w)) (losses_of args) /\ float_pos w = true) ->
       exists loss,
         fst (training_step cfg batch_data batch_idx s) = Ok loss)) /\
  (exists args,
      In (EvForward args)
         (trace (snd (validation_step cfg batch_data batch_idx s))) /\
      ((forall k v w, In (k, (v, w)) (losses_of args) -> float_pos w = false) ->
       fst (validation_step cfg batch_data batch_idx s) = Raise TypeError) /\
      ((exists k v w, In (k, (v, w)) (losses_of args) /\ float_pos w = true) ->
       exists r,
         fst (validation_step cfg batch_data batch_idx s) = Ok r)).
Proof.
  intros Hok. split; [exact weighted_total_None|]. split.
  - destruct (training_step_run cfg batch_data batch_idx s Hok)
      as (a & _ & Hrun).
    cbv zeta in Hrun. eexists. rewrite Hrun. split; [|split].
    + destruct (weighted_total _); cbn [snd trace add_trace];
        apply in_or_app; right; now left.
    + intros Hzero. apply weighted_total_None in Hzero.
      now rewrite Hzero.
    + intros (k & v & w & Hin & Hpos).
      destruct (weighted_total _) eqn:E; [eexists; reflexivity|].
      rewrite (proj1 (weighted_total_None _) E _ _ _ Hin) in Hpos.
      discriminate.
  - destruct (validation_step_run cfg batch_data batch_idx s Hok)
      as (a & _ & Hrun).
    cbv zeta in Hrun. exists (with_flag a true). rewrite Hrun.
    split; [|split].
    + cbn [snd trace add_trace]. apply in_or_app; right; now left.
    + intros Hzero. apply weighted_total_None in Hzero.
      now rewrite Hzero.
    + intros (k & v & w & Hin & Hpos).
      destruct (weighted_total _) eqn:E; [eexists; reflexivity|].
      rewrite (proj1 (weighted_total_None _) E _ _ _ Hin) in Hpos.
      discriminate.
Qed.


End LossRecords.

Section OptimizerAndInference.
Context {T : Torch} {C : collaborators}.
Variable cfg : config.

(** With no fine-tune layers configured the optimizer is chosen by name:
    "Adam" and "RAdam" are built on the parameters of the network with the
    configured learning rate and weight decay, and any other name is
    reported through [logging.info] before [exit(1)]. *)
Lemma configure_optimizers_dispatch (s : module_state) :
  finetune_layers cfg = [] ->
  let start := EvInfo ("Initializing " ++ optim_name cfg ++ " optimizer") in
  (optim_name cfg = "Adam"%string ->
   configure_optimizers cfg s
   = (Ok (Adam net_parameters (optim_lr cfg) (optim_weight_decay cfg)),
      add_trace s [start])) /\
  (optim_name cfg = "RAdam"%string ->
   configure_optimizers cfg s
   = (Ok (RAdam net_parameters (optim_lr cfg) (optim_weight_decay cfg)),
      add_trace s [start])) /\
  (optim_name cfg <> "Adam"%string ->
   optim_name cfg <> "RAdam"%string ->
   configure_optimizers cfg s
   = (Raise (SystemExit 1),
      add_trace s
        [start; EvInfo ("Unrecognized optimizer " ++ optim_name cfg ++ "!")])).
Proof.
  intros Hft start. unfold configure_optimizers. rewrite Hft.
  unfold bind, emit, ret, raise. cbn [List.length Nat.eqb]. fold start.
  repeat split.
  - intros ->. reflexivity.
  - intros ->. reflexivity.
  - intros H1 H2.
    rewrite (eqb_false_of_neq _ _ H1), (eqb_false_of_neq _ _ H2).
    now rewrite add_trace_app.
Qed.

(** With fine-tune layers configured the method stops at the unbound name
    of line 254, whatever the optimizer name is. *)
Lemma configure_optimizers_finetune (s : module_state) :
  finetune_layers cfg <> [] ->
  configure_optimizers cfg s
  = (Raise (NameError "model"),
     add_trace s [EvInfo ("Initializing " ++ optim_name cfg ++ " optimizer")]).
Proof.
  intros Hft. unfold configure_optimizers.
  destruct (finetune_layers cfg) as [|l r]; [congruence|].
  reflexivity.
Qed.


End OptimizerAndInference.

(** ** The methods on concrete inputs *)

Import Toy.

Ltac toy_batch_ok :=
  split; [simpl; lia | intros _; eexists; eexists; split; reflexivity].

(** A run of [batch_dict] on 13 tensors. *)
Lemma batch_dict_record_witness :
  exists record,
    batch_dict batch13 (self_ab true 0) = (Ok record, self_ab true 0) /\
    keys record = field_names /\
    map snd (firstn 13 record) = firstn 13 batch13 /\
    exists text_lens n,
      dict_get "text_lens" record = Some text_lens /\
      size0 text_lens = Some n /\
      dict_get "speaker_id" record = Some (int_tensor (repeat 0 n)).
Proof.
  destruct (batch_dict_record batch13 (self_ab true 0)) as
    (record & Hrun & Hkeys & Hvals & H13 & _); [toy_batch_ok|].
  exists record. repeat split; auto.
  destruct H13 as (t & n & Ht & Hn & Hspk & _); [simpl; lia|].
  exists t, n. auto.
Defined.

(** A speaker id given as 14th tensor reaches the record as it is, and
    without one the speaker ids of a batch of two are two zeros. *)
Example batch_dict_speaker_id :
  (exists record,
      batch_dict batch14 (self_ab true 0) = (Ok record, self_ab true 0) /\
      dict_get "speaker_id" record = Some (vec [4; 5])) /\
  (exists record,
      batch_dict batch13 (self_ab true 0) = (Ok record, self_ab true 0) /\
      dict_get "speaker_id" record = Some (vec [0; 0])).
Proof. split; eexists; split; reflexivity. Qed.


(** Validation before the binarization phase: the computed flag is false,
    the network is called in hard-alignment mode and the KL module is not
    called. *)
Lemma validation_step_hard_alignment_witness :
  validation_step_binarize cfg_late 0 = false /\
  exists args,
    arg_binarize_attention args = true /\
    trace (snd (validation_step cfg_late batch13 0 (self_ab false 0)))
    = [EvForward args].
Proof.
  split; [reflexivity|].
  destruct (validation_step_hard_alignment cfg_late batch13 0 (self_ab false 0))
    as (args & Hflag & Htrace & _); [toy_batch_ok|].
  exists args. split; [exact Hflag | exact Htrace].
Defined.

(** The mapping [{"a": (2.0, 1.0), "b": (3.0, 0.0)}]: the total is 2.0, term
    "b" does not count, and both terms reach the sink. *)
Lemma aggregate_loss_weighted_sum_witness :
  weighted_total terms_ab = Some (scalar 2) /\
  weighted_total terms_ab = weighted_total [("a"%string, (scalar 2, 1%Q))] /\
  (exists s',
      training_step cfg_soft batch13 0 (self_ab true 0) = (Ok (scalar 2), s') /\
      In (EvLog "train/a" (scalar 2)) (trace s') /\
      In (EvLog "train/b" (scalar 3)) (trace s')) /\
  (exists r s',
      validation_step cfg_soft batch13 0 (self_ab true 0) = (Ok r, s') /\
      dict_get "b" (val_loss_outputs r) = Some (Weighted (scalar 3) 0%Q) /\
      In (EvLog "val/b" (scalar 3))
         (trace (snd (validation_epoch_end [r] s')))).
Proof.
  destruct (aggregate_loss_weighted_sum cfg_soft batch13 0 (self_ab true 0))
    as (Hsum & Hskip & (a & Htrain) & (a' & Hval)); [toy_batch_ok|].
  split; [|split; [|split]].
  - rewrite Hsum. reflexivity.
  - apply (Hskip [("a"%string, (scalar 2, 1%Q))] "b"%string (scalar 3) 0%Q []).
    reflexivity.
  - destruct (Htrain (scalar 2) eq_refl) as (s' & Hrun & Hlog).
    exists s'. split; [exact Hrun|]. split.
    + apply (Hlog "a"%string (scalar 2) 1%Q); [now left | discriminate].
    + apply (Hlog "b"%string (scalar 3) 0%Q); [right; now left | discriminate].
  - destruct (Hval (scalar 2) eq_refl) as (r & s' & Hrun & Hrec).
    exists r, s'. split; [exact Hrun|].
    destruct (Hrec "b"%string (scalar 3) 0%Q) as [Hget Hlog];
      [right; now left | discriminate|].
    split; [exact Hget | apply Hlog].
Defined.

(** After a validation epoch on the mapping "a", "b" the record holds the
    binarization term, yet the sink has received "val/a" and "val/b" only:
    not every loss term is written after validation. *)
Lemma validation_drops_binarization_term :
  exists r s1,
    validation_step cfg_binarized batch13 0 (self_ab false 10) = (Ok r, s1) /\
    In "binarization_loss"%string (keys (val_loss_outputs r)) /\
    fst (validation_epoch_end [r] s1) = Ok tt /\
    logged_keys (trace (snd (validation_epoch_end [r] s1)))
    = ["val/a"; "val/b"]%string /\
    ~ In "val/binarization_loss"%string
         (logged_keys (trace (snd (validation_epoch_end [r] s1)))).
Proof.
  remember (validation_step cfg_binarized batch13 0 (self_ab false 10))
    as p eqn:E.
  vm_compute in E. rewrite E.
  eexists. eexists. split; [reflexivity|].
  split; [vm_compute; tauto|]. split; [reflexivity|].
  split; [reflexivity|].
  vm_compute. intros [H|[H|[]]]; discriminate H.
Qed.

(** A training step and a validation epoch on the mapping "a", "b". *)
Lemma loss_terms_logged_by_stage_witness :
  (exists loss s',
      training_step cfg_binarized batch13 0 (self_ab true 10) = (Ok loss, s') /\
      logged_keys (trace s')
      = ["train/a"; "train/b"; "train/binarization_loss"]%string) /\
  (exists r s',
      validation_step cfg_binarized batch13 0 (self_ab true 10) = (Ok r, s') /\
      logged_keys (trace s') = [] /\
      logged_keys (trace (snd (validation_epoch_end [r] s')))
      = ["val/a"; "val/b"]%string).
Proof.
  destruct (loss_terms_logged_by_stage cfg_binarized batch13 0 (self_ab true 10))
    as ((a & Htrain) & (a' & Hval)); [toy_batch_ok|].
  split.
  - destruct (Htrain (scalar 2) eq_refl)
      as (loss & s' & pre & bl & Hrun & Htr & Hpre & _).
    exists loss, s'. split; [exact Hrun|].
    rewrite Htr, !logged_keys_app, Hpre, logged_keys_logged.
    reflexivity.
  - destruct (Hval (scalar 2) eq_refl) as (r & s' & Hrun & Hkeys & _ & Hend).
    exists r, s'. split; [exact Hrun|]. split; [exact Hkeys|].
    destruct (Hend [] s') as (imgs & Htr & Himgs & _).
    rewrite Htr, !logged_keys_app, Hkeys, Himgs, logged_keys_logged.
    reflexivity.
Defined.

(** With all weights zero the training step is not stopped by a check of
    the configuration: it calls the network and then fails with the
    TypeError of [torch.zeros_like(None)]. *)
Lemma training_step_unguarded_zero_weights :
  weighted_total terms_zero = None /\
  fst (training_step cfg_soft batch13 0 (self_zero true 0)) = Raise TypeError /\
  exists args,
    trace (snd (training_step cfg_soft batch13 0 (self_zero true 0)))
    = [EvForward args].
Proof.
  split; [reflexivity|]. split; [reflexivity|].
  eexists. reflexivity.
Qed.

(** The two steps on a mapping without a positive weight and on one with a
    positive weight. *)
Lemma undefined_total_raises_witness :
  (fst (training_step cfg_soft batch13 0 (self_zero true 0)) = Raise TypeError /\
   fst (validation_step cfg_soft batch13 0 (self_zero true 0))
   = Raise TypeError) /\
  (exists loss,
      fst (training_step cfg_soft batch13 0 (self_ab true 0)) = Ok loss).
Proof.
  split.
  - destruct (undefined_total_raises cfg_soft batch13 0 (self_zero true 0))
      as (_ & (a & _ & Htrain & _) & (a' & _ & Hval & _)); [toy_batch_ok|].
    split.
    + apply Htrain. intros k v w [[= _ _ <-]|[[= _ _ <-]|[]]]; reflexivity.
    + apply Hval. intros k v w [[= _ _ <-]|[[= _ _ <-]|[]]]; reflexivity.
  - destruct (undefined_total_raises cfg_soft batch13 0 (self_ab true 0))
      as (_ & (a & _ & _ & Htrain) & _); [toy_batch_ok|].
    apply Htrain. exists "a"%string, (scalar 2), 1%Q.
    split; [now left | reflexivity].
Defined.



(** [parse] in training mode warns and returns the tokens. *)
Example parse_warns_in_training_mode :
  parse "hello" false (self_ab true 0)
  = (Ok (unsqueeze0 (vec [5])),
     add_trace (self_ab true 0)
       [EvWarning "parse() is meant to be called in eval mode."]).
Proof. reflexivity. Qed.

(** C1 at global step 0 with binarization from step 0 and
    [kl_loss_start_iter = -1]: the test of [validation_step] fails, the test
    of [training_step] succeeds, and the training step calls the
    binarization-KL module and adds its value 0.25 to the total 2.0, where
    the validation step records the zero placeholder. *)
Theorem training_step_kl_negative_start :
  validation_step_kl_test cfg_kl_off (validation_step_binarize cfg_kl_off 0) 0
  = false /\
  training_step_kl_test cfg_kl_off (training_step_binarize cfg_kl_off 0) 0
  = true /\
  fst (training_step cfg_kl_off batch13 0 (self_ab true 0))
  = Ok (scalar (9 # 4)) /\
  In (EvAttentionKL hard_map soft_map)
     (trace (snd (training_step cfg_kl_off batch13 0 (self_ab true 0)))) /\
  In (EvLog "train/binarization_loss" (scalar (1 # 4)))
     (trace (snd (training_step cfg_kl_off batch13 0 (self_ab true 0)))) /\
  (exists r,
      fst (validation_step cfg_kl_off batch13 0 (self_ab true 0)) = Ok r /\
      dict_get "binarization_loss" (val_loss_outputs r)
      = Some (Bare (scalar 0)) /\
      trace (snd (validation_step cfg_kl_off batch13 0 (self_ab true 0)))
      = [EvForward
           {| arg_mel := vec [7; 8];
              arg_speaker_ids := vec [0; 0];
              arg_text := vec [5; 6];
              arg_in_lens := vec [1; 1];
              arg_out_lens := vec [1; 1];
              arg_binarize_attention := true;
              arg_attn_prior := vec [9];
              arg_f0 := vec [3; 4];
              arg_energy_avg := vec [2; 2];
              arg_voiced_mask := vec [1; 0];
              arg_p_voiced := vec [1; 0] |}]).
Proof.
  split; [reflexivity|]. split; [reflexivity|].
  split; [reflexivity|]. split; [vm_compute; tauto|].
  split; [vm_compute; tauto|].
  eexists. split; [reflexivity|]. split; reflexivity.
Qed.

(** C7 with one fine-tune layer configured: for the optimizer "Adam" the
    method announces the optimizer and raises NameError, and no optimizer is
    built; for the unsupported "SGD" it raises the same NameError, and
    neither the message about the unrecognized optimizer nor [exit(1)] is
    reached.  With no fine-tune layer the same two names give the Adam
    optimizer and the exit. *)
Theorem configure_optimizers_finetune_name_error :
  configure_optimizers cfg_finetune (self_ab true 0)
  = (Raise (NameError "model"),
     add_trace (self_ab true 0) [EvInfo "Initializing Adam optimizer"]) /\
  configure_optimizers (config_of 0 0 ["attention"%string] "SGD") (self_ab true 0)
  = (Raise (NameError "model"),
     add_trace (self_ab true 0) [EvInfo "Initializing SGD optimizer"]) /\
  fst (configure_optimizers (config_of 0 0 [] "Adam") (self_ab true 0))
  = Ok (@Adam torch collab_ab tt (1 # 1000)%Q (1 # 1000000)%Q) /\
  fst (configure_optimizers (config_of 0 0 [] "SGD") (self_ab true 0))
  = Raise (SystemExit 1).
Proof.
  split; [|split].
  - apply configure_optimizers_finetune. discriminate.
  - apply configure_optimizers_finetune. discriminate.
  - split; reflexivity.
Qed.

(** Without fine-tune layers: "Adam" and "RAdam" are built, "SGD" is
    reported and the process exits. *)
Example configure_optimizers_by_name :
  fst (configure_optimizers (config_of 0 0 [] "Adam") (self_ab true 0))
  = Ok (@Adam torch collab_ab tt (1 # 1000)%Q (1 # 1000000)%Q) /\
  fst (configure_optimizers (config_of 0 0 [] "RAdam") (self_ab true 0))
  = Ok (@RAdam torch collab_ab tt (1 # 1000)%Q (1 # 1000000)%Q) /\
  configure_optimizers (config_of 0 0 [] "SGD") (self_ab true 0)
  = (Raise (SystemExit 1),
     add_trace (self_ab true 0)
       [EvInfo "Initializing SGD optimizer";
        EvInfo "Unrecognized optimizer SGD!"]).
Proof. repeat split. Qed.

(** ** Further properties of the methods *)

Section Frames.
Context {T : Torch} {C : collaborators}.

Lemma only_emits_ret {A : Type} (a : A) : only_emits (ret a).
Proof. intros s. exists []. simpl. now rewrite add_trace_nil. Qed.

Lemma only_emits_raise {A : Type} (e : exn) : only_emits (@raise _ _ A e).
Proof. intros s. exists []. simpl. now rewrite add_trace_nil. Qed.

Lemma only_emits_emit (e : event) : only_emits (emit e).
Proof. intros s. now exists [e]. Qed.

Lemma only_emits_get_self : only_emits get_self.
Proof. intros s. exists []. simpl. now rewrite add_trace_nil. Qed.

Lemma only_emits_or_raise {A : Type} (e : exn) (o : option A) :
  only_emits (or_raise e o).
Proof. destruct o; [apply only_emits_ret | apply only_emits_raise]. Qed.

Lemma only_emits_bind {A B : Type} (m : M A) (f : A -> M B) :
  only_emits m -> (forall a, only_emits (f a)) -> only_emits (bind m f).
Proof.
  intros Hm Hf s. unfold bind.
  destruct (Hm s) as [evs Hs]. destruct (m s) as [[a|e] s1]; simpl in Hs.
  - destruct (Hf a s1) as [evs' Hs']. exists (evs ++ evs').
    now rewrite Hs', Hs, add_trace_app.
  - now exists evs.
Qed.

Lemma only_emits_for_each {A : Type} (body : A -> M unit) (l : list A) :
  (forall x, only_emits (body x)) -> only_emits (for_each body l).
Proof.
  intros Hb. induction l as [|x r IH]; simpl.
  - apply only_emits_ret.
  - apply only_emits_bind; auto.
Qed.

(** One step of the syntax-directed proof that a method only emits. *)
Ltac frame_step :=
  first
    [ apply only_emits_ret
    | apply only_emits_raise
    | apply only_emits_emit
    | apply only_emits_get_self
    | apply only_emits_or_raise
    | apply only_emits_bind; [|intro]
    | apply only_emits_for_each; intro
    | match goal with
      | |- only_emits (if ?b then _ else _) => destruct b
      | |- only_emits (match ?p with (_, _) => _ end) => destruct p
      | |- only_emits (match ?e with Weighted _ _ => _ | Bare _ => _ end) =>
          destruct e
      end
    | progress cbv zeta ].

Lemma only_emits_batch_dict (batch_data : list tensor) :
  only_emits (batch_dict batch_data).
Proof. unfold batch_dict, py_index. repeat frame_step. Qed.

Lemma only_emits_training_step cfg (batch_data : list tensor) (batch_idx : Z) :
  only_emits (training_step cfg batch_data batch_idx).
Proof.
  unfold training_step.
  apply only_emits_bind; [apply only_emits_batch_dict | intro].
  unfold forward_args, add_binarization_loss, py_getitem.
  repeat frame_step.
Qed.

Lemma only_emits_validation_step cfg (batch_data : list tensor) (batch_idx : Z) :
  only_emits (validation_step cfg batch_data batch_idx).
Proof.
  unfold validation_step.
  apply only_emits_bind; [apply only_emits_batch_dict | intro].
  unfold forward_args, add_binarization_loss, py_getitem.
  repeat frame_step.
Qed.

Lemma only_emits_log_validation_losses (d : dict loss_entry) :
  only_emits (log_validation_losses d).
Proof.
  unfold log_validation_losses, py_getitem, entry_index0.
  repeat frame_step.
Qed.

Lemma only_emits_parse (text : string) (normalize : bool) :
  only_emits (parse text normalize).
Proof. unfold parse. repeat frame_step. Qed.

Lemma only_emits_configure_optimizers cfg : only_emits (configure_optimizers cfg).
Proof. unfold configure_optimizers. repeat frame_step. Qed.

(** The training and validation steps, [parse] and [configure_optimizers]
    leave the mode, the step counter and the image flag of the model as they
    found them and only append to the trace, on every input and whether they
    return or raise. *)
Theorem steps_leave_self_alone cfg (batch_data : list tensor) (batch_idx : Z)
  (text : string) (normalize : bool) (s : module_state) :
  grown s (snd (training_step cfg batch_data batch_idx s)) /\
  grown s (snd (validation_step cfg batch_data batch_idx s)) /\
  grown s (snd (parse text normalize s)) /\
  grown s (snd (configure_optimizers cfg s)).
Proof.
  assert (H : forall A (m : M A), only_emits m -> grown s (snd (m s))).
  { intros A m Hm. destruct (Hm s) as [evs ->]. unfold grown. simpl.
    split; [|split; [|split]]; auto. now exists evs. }
  split; [|split; [|split]]; apply H.
  - apply only_emits_training_step.
  - apply only_emits_validation_step.
  - apply only_emits_parse.
  - apply only_emits_configure_optimizers.
Qed.

End Frames.

Section BatchEdges.
Context {T : Torch} {C : collaborators}.

Ltac run_batch_dict :=
  unfold batch_dict, bind, py_index, or_raise, ret, raise; simpl;
  repeat (match goal with
          | |- context [size0 ?t] => destruct (size0 t)
          end; simpl);
  try reflexivity.

(** A batch that is not accepted makes the adapter raise IndexError. *)
Lemma batch_dict_rejects (batch_data : list tensor) (s : module_state) :
  ~ batch_ok batch_data -> batch_dict batch_data s = (Raise IndexError, s).
Proof.
  intros Hbad.
  do 13 (destruct batch_data as [|? batch_data]; [run_batch_dict|]).
  destruct batch_data as [|spk rest].
  - destruct (size0 t2) as [n|] eqn:Hn.
    + exfalso. apply Hbad. split; [simpl; lia|].
      intros _. exists t2, n. split; [reflexivity | exact Hn].
    + unfold batch_dict, bind, py_index, or_raise, ret, raise. simpl.
      now rewrite Hn.
  - exfalso. apply Hbad. split; simpl; lia.
Qed.

(** [batch_dict] has two outcomes and never touches [self]: it returns a
    record exactly on the accepted batches (at least 13 tensors, and a
    text-length tensor with a dimension 0 when there are exactly 13), and on
    every other batch, shorter ones and the empty one included, it raises
    IndexError. *)
Theorem batch_dict_outcomes (batch_data : list tensor) (s : module_state) :
  ((exists record, batch_dict batch_data s = (Ok record, s)) <->
   batch_ok batch_data) /\
  (batch_dict batch_data s = (Raise IndexError, s) <-> ~ batch_ok batch_data) /\
  snd (batch_dict batch_data s) = s.
Proof.
  assert (Hcases : batch_ok batch_data \/ ~ batch_ok batch_data).
  { destruct (le_lt_dec 13 (List.length batch_data)) as [Hge|Hlt].
    - destruct (le_lt_dec 14 (List.length batch_data)) as [Hge'|Hlt'].
      + left. split; [exact Hge | lia].
      + destruct (nth_error batch_data 3) as [t|] eqn:Ht.
        * destruct (size0 t) as [n|] eqn:Hn.
          -- left. split; [exact Hge|]. intros _. now exists t, n.
          -- right. intros [_ H]. destruct (H Hlt') as (t' & n & Ht' & Hn').
             congruence.
        * right. intros [_ H]. destruct (H Hlt') as (t' & n & Ht' & _).
          congruence.
    - right. intros [H _]. lia. }
  destruct Hcases as [Hok|Hbad].
  - destruct (batch_dict_args batch_data Hok) as (batch & a & Hb & _).
    split; [|split].
    + split; [intros _; exact Hok | intros _; exists batch; apply Hb].
    + rewrite Hb. split; [discriminate | tauto].
    + now rewrite Hb.
  - pose proof (batch_dict_rejects batch_data s Hbad) as Hr.
    split; [|split].
    + split; [|tauto]. intros [record Hrec]. congruence.
    + tauto.
    + now rewrite Hr.
Qed.

(** On a batch the adapter rejects, both steps stop with IndexError before
    anything else happens: the network is not called, nothing is logged and
    [self] is as it was. *)
Theorem steps_reject_bad_batch cfg (batch_data : list tensor) (batch_idx : Z)
  (s : module_state) :
  ~ batch_ok batch_data ->
  training_step cfg batch_data batch_idx s = (Raise IndexError, s) /\
  validation_step cfg batch_data batch_idx s = (Raise IndexError, s).
Proof.
  intros Hbad. pose proof (batch_dict_rejects batch_data s Hbad) as Hr.
  split.
  - unfold training_step. now rewrite (bind_raise _ _ _ _ _ Hr).
  - unfold validation_step. now rewrite (bind_raise _ _ _ _ _ Hr).
Qed.

(** Tensors after the 14th are never read: the adapter and both steps
    behave on a longer batch as on its first 14 tensors. *)
Theorem batch_tail_ignored cfg (batch_data : list tensor) (batch_idx : Z)
  (s : module_state) :
  (14 <= List.length batch_data)%nat ->
  batch_dict batch_data s = batch_dict (firstn 14 batch_data) s /\
  training_step cfg batch_data batch_idx s
  = training_step cfg (firstn 14 batch_data) batch_idx s /\
  validation_step cfg batch_data batch_idx s
  = validation_step cfg (firstn 14 batch_data) batch_idx s.
Proof.
  intros Hlen.
  assert (Hb : forall s0, batch_dict batch_data s0
                          = batch_dict (firstn 14 batch_data) s0).
  { intros s0.
    do 14 (destruct batch_data as [|? batch_data]; [simpl in Hlen; lia|]).
    reflexivity. }
  split; [apply Hb|].
  split.
  - unfold training_step, bind at 1. rewrite Hb. reflexivity.
  - unfold validation_step, bind at 1. rewrite Hb. reflexivity.
Qed.

End BatchEdges.

Section GateEdges.
Context {T : Torch} {C : collaborators}.
Variable cfg : config.

(** Once open, the gates stay open: if the flag [binarize] of a step, or
    the test that guards the binarization-KL loss, holds at a global step,
    it holds at every later one. *)
Theorem phase_gates_monotone (gs gs' : Z) :
  gs <= gs' ->
  (training_step_binarize cfg gs = true ->
   training_step_binarize cfg gs' = true) /\
  (validation_step_binarize cfg gs = true ->
   validation_step_binarize cfg gs' = true) /\
  (training_step_kl_test cfg (training_step_binarize cfg gs) gs = true ->
   training_step_kl_test cfg (training_step_binarize cfg gs') gs' = true) /\
  (validation_step_kl_test cfg (validation_step_binarize cfg gs) gs = true ->
   validation_step_kl_test cfg (validation_step_binarize cfg gs') gs' = true).
Proof.
  intros Hle.
  unfold training_step_kl_test, validation_step_kl_test,
    training_step_binarize, validation_step_binarize.
  rewrite !andb_true_iff, !geb_true. repeat split; lia.
Qed.

(** The two tests compared at one global step: whenever validation adds the
    binarization-KL loss, training does; training adds it without
    validation doing so exactly in the binarization phase of a run whose
    [kl_loss_start_iter] is negative. *)
Theorem kl_tests_compared (gs : Z) :
  (validation_step_kl_test cfg (validation_step_binarize cfg gs) gs = true ->
   training_step_kl_test cfg (training_step_binarize cfg gs) gs = true) /\
  (training_step_kl_test cfg (training_step_binarize cfg gs) gs = true /\
   validation_step_kl_test cfg (validation_step_binarize cfg gs) gs = false
   <->
   0 <= binarization_start_iter cfg <= gs /\ kl_loss_start_iter cfg < 0).
Proof.
  unfold training_step_kl_test, validation_step_kl_test,
    training_step_binarize, validation_step_binarize.
  rewrite ?andb_true_iff, ?andb_false_iff, ?andb_true_iff, ?geb_true,
    ?geb_false.
  split; [tauto|]. split; intros H; lia.
Qed.

(** What [training_step] does with the binarization-KL loss on an accepted
    batch whose weighted total is defined.  The module is called, once and
    before anything is logged, exactly when
    [binarization_start_iter >= 0], [global_step >= binarization_start_iter]
    and [global_step >= kl_loss_start_iter]; then its value is added to the
    total and logged.  Otherwise the total is returned as it is and the
    logged binarization term is [zeros_like(total)]. *)
Theorem training_step_kl_gate (batch_data : list tensor) (batch_idx : Z)
  (s : module_state) :
  batch_ok batch_data ->
  exists args,
    arg_binarize_attention args
    = ((binarization_start_iter cfg >=? 0)
       && (global_step s >=? binarization_start_iter cfg)) /\
    forall total,
      weighted_total (losses_of args) = Some total ->
      (binarization_start_iter cfg >= 0 /\
       global_step s >= binarization_start_iter cfg /\
       global_step s >= kl_loss_start_iter cfg ->
       training_step cfg batch_data batch_idx s
       = (Ok (t_add total (kl_of args)),
          add_trace s
            (EvForward args :: kl_event args
             :: logged "train/" (training_record (kl_of args) (losses_of args))))) /\
      (binarization_start_iter cfg < 0 \/
       global_step s < binarization_start_iter cfg \/
       global_step s < kl_loss_start_iter cfg ->
       training_step cfg batch_data batch_idx s
       = (Ok total,
          add_trace s
            (EvForward args
             :: logged "train/"
                  (training_record (zeros_like total) (losses_of args))))).
Proof.
  intros Hok.
  destruct (training_step_run cfg batch_data batch_idx s Hok) as (a & _ & Hrun).
  cbv zeta in Hrun.
  exists (with_flag a (training_step_binarize cfg (global_step s))).
  split; [reflexivity|].
  intros total Htot. rewrite Htot in Hrun. split.
  - intros (H1 & H2 & H3).
    assert (Hact : training_step_kl_test cfg
                     (training_step_binarize cfg (global_step s))
                     (global_step s) = true).
    { unfold training_step_kl_test, training_step_binarize.
      rewrite !andb_true_iff, !geb_true. lia. }
    rewrite Hact in Hrun. exact Hrun.
  - intros H.
    assert (Hact : training_step_kl_test cfg
                     (training_step_binarize cfg (global_step s))
                     (global_step s) = false).
    { unfold training_step_kl_test, training_step_binarize.
      rewrite !andb_false_iff, !geb_false. lia. }
    rewrite Hact in Hrun. exact Hrun.
Qed.

Lemma has_key_In {V : Type} (k : string) (d : dict V) :
  has_key k d = true <-> In k (keys d).
Proof. apply existsb_eqb_In. Qed.

(** The log calls of [training_step] follow the mapping of the loss module,
    with the binarization term last.  When the loss module has a term called
    "binarization_loss" itself, no entry is added: that term keeps its place,
    and what is logged under its key is the auxiliary value (or the zero
    placeholder), never the value the loss module gave. *)
Theorem training_step_log_order (batch_data : list tensor) (batch_idx : Z)
  (s : module_state) :
  batch_ok batch_data ->
  exists args,
    forall total,
      weighted_total (losses_of args) = Some total ->
      exists loss evs bl,
        training_step cfg batch_data batch_idx s = (Ok loss, add_trace s evs) /\
        logged_keys evs
        = map (fun k => ("train/" ++ k)%string)
            (keys (losses_of args)
             ++ (if has_key "binarization_loss" (losses_of args) then []
                 else ["binarization_loss"%string])) /\
        In (EvLog "train/binarization_loss" bl) evs /\
        (forall v, In (EvLog "train/binarization_loss" v) evs -> v = bl) /\
        (bl = kl_of args \/ bl = zeros_like total).
Proof.
  intros Hok.
  destruct (training_step_run cfg batch_data batch_idx s Hok) as (a & _ & Hrun).
  cbv zeta in Hrun.
  exists (with_flag a (training_step_binarize cfg (global_step s))).
  intros total Htot. rewrite Htot in Hrun.
  set (args := with_flag a (training_step_binarize cfg (global_step s))) in *.
  set (active := training_step_kl_test cfg
                   (training_step_binarize cfg (global_step s))
                   (global_step s)) in *.
  set (bl := if active then kl_of args else zeros_like total) in *.
  assert (Hwf : dict_wf (training_record bl (losses_of args)) = true)
    by (apply dict_wf_set, criterion_wf).
  eexists. eexists. exists bl. split; [exact Hrun|].
  split; [|split; [|split]].
  - change (EvForward args :: (if active then [kl_event args] else [])
            ++ logged "train/" (training_record bl (losses_of args)))
      with ((EvForward args :: (if active then [kl_event args] else []))
            ++ logged "train/" (training_record bl (losses_of args))).
    rewrite logged_keys_app, logged_keys_logged.
    replace (logged_keys
               (EvForward args :: (if active then [kl_event args] else [])))
      with (@nil string) by (destruct active; reflexivity).
    cbn [app]. f_equal. unfold training_record.
    destruct (has_key "binarization_loss" (losses_of args)) eqn:Hk.
    + rewrite app_nil_r. apply keys_set_present. now apply has_key_In.
    + apply keys_set_absent. intros Hin. apply has_key_In in Hin. congruence.
  - right. apply in_or_app. right.
    apply (in_logged "train/" "binarization_loss" bl float_one).
    apply dict_get_Some_In. apply dict_get_set_same.
  - intros v [Hv|Hv]; [discriminate Hv|].
    apply in_app_or in Hv. destruct Hv as [Hv|Hv].
    + destruct active; [destruct Hv as [Hv|[]]; discriminate Hv | destruct Hv].
    + unfold logged in Hv. apply in_map_iff in Hv.
      destruct Hv as ([k [v' w]] & Hev & Hin). simpl in Hev.
      injection Hev as Hk Hv'.
      assert (Hkk : k = "binarization_loss"%string)
        by (simpl in Hk; congruence).
      subst k v'.
      apply (dict_get_In _ _ _ Hwf) in Hin.
      unfold training_record in Hin. rewrite dict_get_set_same in Hin.
      now injection Hin as ->.
  - unfold bl. destruct active; auto.
Qed.

End GateEdges.

Section EpochEnd.
Context {T : Torch} {C : collaborators}.
Variable cfg : config.




End EpochEnd.

Section OptimizerOutcomes.
Context {T : Torch} {C : collaborators}.
Variable cfg : config.

(** The three outcomes of [configure_optimizers].  It returns an optimizer
    exactly when no fine-tune layer is configured and the name is "Adam" or
    "RAdam" (in that spelling), and the optimizer is then the one of that
    name on the parameters of the network with the configured learning rate
    and weight decay; it raises NameError exactly when a fine-tune layer is
    configured; and it exits with status 1, after the message about the
    unrecognized optimizer, in the remaining case.  The first thing it does
    is always to announce the optimizer. *)
Theorem configure_optimizers_outcomes (s : module_state) :
  ((exists opt, fst (configure_optimizers cfg s) = Ok opt) <->
   finetune_layers cfg = [] /\
   (optim_name cfg = "Adam"%string \/ optim_name cfg = "RAdam"%string)) /\
  (fst (configure_optimizers cfg s) = Raise (NameError "model") <->
   finetune_layers cfg <> []) /\
  (fst (configure_optimizers cfg s) = Raise (SystemExit 1) <->
   finetune_layers cfg = [] /\
   optim_name cfg <> "Adam"%string /\ optim_name cfg <> "RAdam"%string) /\
  (forall opt,
      fst (configure_optimizers cfg s) = Ok opt ->
      opt = (if String.eqb (optim_name cfg) "Adam" then Adam else RAdam)
              net_parameters (optim_lr cfg) (optim_weight_decay cfg)) /\
  (exists evs,
      trace (snd (configure_optimizers cfg s))
      = trace s
        ++ EvInfo ("Initializing " ++ optim_name cfg ++ " optimizer") :: evs /\
      (evs = [] \/
       evs = [EvInfo ("Unrecognized optimizer " ++ optim_name cfg ++ "!")] /\
       fst (configure_optimizers cfg s) = Raise (SystemExit 1))).
Proof.
  destruct (finetune_layers cfg) as [|l r] eqn:Hft.
  - assert (Hft' : finetune_layers cfg = []) by exact Hft.
    destruct (configure_optimizers_dispatch cfg s Hft') as (HA & HR & HX).
    cbv zeta in HA, HR, HX.
    destruct (string_dec (optim_name cfg) "Adam") as [EA|NA].
    + rewrite (HA EA). cbn [fst snd trace add_trace].
      split; [|split; [|split; [|split]]].
      * split; [auto | intros _; eexists; reflexivity].
      * split; [discriminate | congruence].
      * split; [discriminate | tauto].
      * intros opt [= <-]. rewrite EA. reflexivity.
      * exists []. split; auto.
    + destruct (string_dec (optim_name cfg) "RAdam") as [ER|NR].
      * rewrite (HR ER). cbn [fst snd trace add_trace].
        split; [|split; [|split; [|split]]].
        -- split; [auto | intros _; eexists; reflexivity].
        -- split; [discriminate | congruence].
        -- split; [discriminate | tauto].
        -- intros opt [= <-]. rewrite ER. reflexivity.
        -- exists []. split; auto.
      * rewrite (HX NA NR). cbn [fst snd trace add_trace].
        split; [|split; [|split; [|split]]].
        -- split; [intros [opt H]; discriminate H | tauto].
        -- split; [discriminate | congruence].
        -- split; auto.
        -- intros opt H. discriminate H.
        -- eexists. split; [reflexivity|]. right. split; reflexivity.
  - assert (Hne : finetune_layers cfg <> []) by (rewrite Hft; discriminate).
    rewrite (configure_optimizers_finetune cfg s Hne).
    cbn [fst snd trace add_trace].
    split; [|split; [|split; [|split]]].
    + split; [intros [opt H]; discriminate H | intros [H _]; discriminate H].
    + split; [intros _; discriminate | reflexivity].
    + split; [discriminate | intros [H _]; discriminate H].
    + intros opt H. discriminate H.
    + exists []. split; auto.
Qed.


(** [parse] and the normalizer: the tokens are those of the tokenizer on the
    text; asking for normalization when no normalizer is configured changes
    nothing, and with a normalizer it is the same as parsing the normalized
    text without asking. *)
Theorem parse_normalize (s : module_state) (text : string) :
  fst (parse text false s) = Ok (unsqueeze0 (int_tensor (tokenizer text))) /\
  (text_normalizer_call = None -> parse text true s = parse text false s) /\
  (forall call,
      text_normalizer_call = Some call ->
      parse text true s = parse (call text) false s).
Proof.
  unfold parse, bind, get_self, emit, ret.
  split; [destruct (training s); reflexivity|]. split.
  - intros ->. reflexivity.
  - intros call ->. reflexivity.
Qed.

End OptimizerOutcomes.

Section DataSetupFacts.
Context {T : Torch} {C : collaborators}.
Variables dataset_config dataset dataloader_params data_loader : Type.
Variable instantiate_dataset : dataset_config -> dataset.
Variable DataLoader : dataset -> dataloader_params -> data_loader.

(** [_loader] never returns [None] and never warns.  When the manifest path
    can be read it returns the data loader built from the instantiated
    dataset and the loader parameters; when the mandatory value is missing
    it raises NameError (the name [omegaconf] of the [except] clause), and
    [setup_training_data] and [setup_validation_data] then raise the same
    error and assign nothing. *)
Theorem loader_outcomes (cfg : loader_config dataset_config dataloader_params)
  (self : data_loaders data_loader) (s : module_state) :
  snd (_loader instantiate_dataset DataLoader cfg s) = s /\
  fst (_loader instantiate_dataset DataLoader cfg s) <> Ok None /\
  (fst (_loader instantiate_dataset DataLoader cfg s)
   = Ok (Some (DataLoader (instantiate_dataset (cfg_dataset cfg))
                 (cfg_dataloader_params cfg)))
   <-> cfg_manifest_filepath cfg <> None) /\
  (fst (_loader instantiate_dataset DataLoader cfg s) = Raise (NameError "omegaconf")
   <-> cfg_manifest_filepath cfg = None) /\
  (cfg_manifest_filepath cfg = None ->
   setup_training_data instantiate_dataset DataLoader cfg self s = (Raise (NameError "omegaconf"), s) /\
   setup_validation_data instantiate_dataset DataLoader cfg self s = (Raise (NameError "omegaconf"), s)).
Proof.
  unfold setup_training_data, setup_validation_data, _loader, bind.
  destruct (cfg_manifest_filepath cfg) as [p|]; cbn.
  - split; [reflexivity|]. split; [discriminate|]. split; [|split].
    + split; [discriminate | reflexivity].
    + split; discriminate.
    + discriminate.
  - split; [reflexivity|]. split; [discriminate|]. split; [|split].
    + split; [discriminate | congruence].
    + split; reflexivity.
    + intros _. split; reflexivity.
Qed.

(** Each of the two setup methods writes its own loader field and leaves
    the other one alone, so with readable manifests they can be called in
    either order and give the same two loaders; [setup_test_data] changes
    nothing. *)
Theorem setup_data_independent
  (cfg_train cfg_val : loader_config dataset_config dataloader_params)
  (self : data_loaders data_loader) (s : module_state) :
  cfg_manifest_filepath cfg_train <> None ->
  cfg_manifest_filepath cfg_val <> None ->
  bind (setup_training_data instantiate_dataset DataLoader cfg_train self) (setup_validation_data instantiate_dataset DataLoader cfg_val) s
  = (Ok {| _train_dl :=
             Some (DataLoader (instantiate_dataset (cfg_dataset cfg_train))
                     (cfg_dataloader_params cfg_train));
           _validation_dl :=
             Some (DataLoader (instantiate_dataset (cfg_dataset cfg_val))
                     (cfg_dataloader_params cfg_val)) |}, s) /\
  bind (setup_validation_data instantiate_dataset DataLoader cfg_val self) (setup_training_data instantiate_dataset DataLoader cfg_train) s
  = bind (setup_training_data instantiate_dataset DataLoader cfg_train self) (setup_validation_data instantiate_dataset DataLoader cfg_val) s /\
  _validation_dl (match fst (setup_training_data instantiate_dataset DataLoader cfg_train self s) with
                    | Ok self' => self'
                    | Raise _ => self
                    end)
  = _validation_dl self /\
  setup_test_data cfg_train self s
  = (Ok self, s).
Proof.
  intros Ht Hv.
  unfold setup_training_data, setup_validation_data, setup_test_data,
    _loader, bind, ret.
  destruct (cfg_manifest_filepath cfg_train) as [p|]; [|congruence].
  destruct (cfg_manifest_filepath cfg_val) as [q|]; [|congruence].
  cbn. repeat split.
Qed.

End DataSetupFacts.

Section TensorBoardFacts.
Variable experiment : Type.

(** Reading [tb_logger] raises AttributeError exactly when nothing is
    cached and the model has no logger.  Otherwise it returns a value and
    stores that value in the cache; once the value is a handle, every later
    read returns the same handle without looking at the logger, even when
    the logger has been replaced or removed.  It returns [None] only when
    the experiment it picked from the logger is [None], and then nothing is
    cached. *)
Theorem tb_logger_cached (logger : option (lightning_logger experiment))
  (cache : option experiment) :
  (fst (tb_logger logger cache) = AttributeError <->
   logger = None /\ cache = None) /\
  (fst (tb_logger logger cache) = AttributeError ->
   snd (tb_logger logger cache) = None) /\
  (forall v,
      fst (tb_logger logger cache) = Returns v ->
      snd (tb_logger logger cache) = v) /\
  (forall e,
      fst (tb_logger logger cache) = Returns (Some e) ->
      forall logger',
        tb_logger logger' (snd (tb_logger logger cache))
        = (Returns (Some e), Some e)) /\
  (forall e, cache = Some e -> tb_logger logger cache = (Returns (Some e), Some e)) /\
  (fst (tb_logger logger cache) = Returns None ->
   cache = None /\ exists lg, logger = Some lg).
Proof.
  unfold tb_logger.
  destruct cache as [c|]; [|destruct logger as [lg|]]; cbn.
  - split; [split; [discriminate | intros [_ H]; discriminate H]|].
    split; [discriminate|]. split; [intros v [= <-]; reflexivity|]. split.
    + intros e [= <-] logger'. reflexivity.
    + split; [intros e [= <-]; reflexivity | discriminate].
  - split; [split; [discriminate | intros [H _]; discriminate H]|].
    split; [discriminate|]. split; [intros v [= <-]; reflexivity|]. split.
    + intros e [= ->] logger'. reflexivity.
    + split; [discriminate|]. intros _. split; [reflexivity|]. now exists lg.
  - split; [tauto|]. split; [reflexivity|]. split; [discriminate|]. split.
    + intros e H. discriminate H.
    + split; discriminate.
Qed.

Lemma first_tensorboard_find (members : list (plain_logger experiment))
  (fallback : option experiment) :
  first_tensorboard members fallback
  = match find (@is_tensorboard experiment) members with
    | Some l => @plain_experiment experiment l
    | None => fallback
    end.
Proof.
  induction members as [|l r IH]; simpl; auto.
  destruct (is_tensorboard l); auto.
Qed.

(** Which experiment the first read picks.  For a single logger it is that
    logger's experiment, whether or not the logger is a TensorBoardLogger.
    For a collection it is the experiment of the first TensorBoardLogger
    among the members, and the experiment of the collection itself when no
    member is one: in particular for an empty collection. *)
Theorem tb_logger_choice :
  (forall p : plain_logger experiment,
      tb_logger (Some (Plain p)) None
      = (Returns (plain_experiment p), plain_experiment p)) /\
  (forall (own : option experiment) (before : list (plain_logger experiment))
          (l : plain_logger experiment) (after : list (plain_logger experiment)),
      forallb (fun m => negb (is_tensorboard m)) before = true ->
      is_tensorboard l = true ->
      fst (tb_logger (Some (LoggerCollection own (before ++ l :: after))) None)
      = Returns (plain_experiment l)) /\
  (forall (own : option experiment) (members : list (plain_logger experiment)),
      forallb (fun m => negb (is_tensorboard m)) members = true ->
      fst (tb_logger (Some (LoggerCollection own members)) None)
      = Returns own).
Proof.
  split; [reflexivity|]. split.
  - intros own before l after Hb Hl. unfold tb_logger. cbn [fst logger_experiment].
    rewrite first_tensorboard_find.
    induction before as [|m r IH]; simpl in *.
    + now rewrite Hl.
    + apply andb_true_iff in Hb. destruct Hb as [Hm Hr].
      apply negb_true_iff in Hm. rewrite Hm. auto.
  - intros own members Hm. unfold tb_logger. cbn [fst logger_experiment].
    rewrite first_tensorboard_find.
    induction members as [|m r IH]; simpl in *; auto.
    apply andb_true_iff in Hm. destruct Hm as [Hm Hr].
    apply negb_true_iff in Hm. rewrite Hm. auto.
Qed.

End TensorBoardFacts.

Section TokenizerSetupFacts.
Variables path artifact g2p tokenizer_object pad_id token_list : Type.
Variable register_artifact : string -> path -> artifact.
Variable instantiate_g2p : g2p_config path -> dict artifact -> g2p.
Variable instantiate_tokenizer : tokenizer_config path -> dict g2p -> tokenizer_object.
Variable is_base_tokenizer : tokenizer_object -> bool.
Variable tokenizer_pad : tokenizer_object -> pad_id.
Variable tokenizer_tokens : tokenizer_object -> token_list.


Lemma register_if_calls label value calls :
  snd (register_if register_artifact label value calls)
  = calls ++ registration label value.
Proof. destruct value; simpl; auto. now rewrite app_nil_r. Qed.

(** The keyword arguments of the tokenizer and the artifacts registered on
    the way.  Without a "g2p" key the tokenizer gets no keyword argument and
    nothing is registered.  With one, it gets exactly the argument "g2p";
    the artifacts are registered in the order phoneme_dict, heteronyms,
    adlr_symbol_id_mapper, each when its key is there; and the g2p module
    gets at most the arguments "phoneme_dict" and "heteronyms": what is
    registered for adlr_symbol_id_mapper is passed on to nothing. *)
Theorem tokenizer_kwargs_artifacts (cfg : tokenizer_config path)
  (calls : list (string * path)) :
  (tokenizer_g2p cfg = None -> tokenizer_kwargs register_artifact instantiate_g2p cfg calls = ([], calls)) /\
  (forall g,
      tokenizer_g2p cfg = Some g ->
      snd (tokenizer_kwargs register_artifact instantiate_g2p cfg calls)
      = calls
        ++ registration "text_tokenizer.g2p.phoneme_dict"
             (g2p_phoneme_dict g)
        ++ registration "text_tokenizer.g2p.heteronyms"
             (g2p_heteronyms g)
        ++ registration "text_tokenizer.g2p.adlr_symbol_id_mapper"
             (g2p_adlr_symbol_id_mapper g) /\
      exists g2p_kwargs,
        fst (tokenizer_kwargs register_artifact instantiate_g2p cfg calls) = [("g2p"%string, instantiate_g2p g g2p_kwargs)] /\
        keys g2p_kwargs
        = match g2p_phoneme_dict g with
          | Some _ => ["phoneme_dict"%string]
          | None => []
          end
          ++ match g2p_heteronyms g with
             | Some _ => ["heteronyms"%string]
             | None => []
             end /\
        dict_get "phoneme_dict" g2p_kwargs
        = option_map (register_artifact "text_tokenizer.g2p.phoneme_dict")
            (g2p_phoneme_dict g) /\
        dict_get "heteronyms" g2p_kwargs
        = option_map (register_artifact "text_tokenizer.g2p.heteronyms")
            (g2p_heteronyms g)).
Proof.
  unfold tokenizer_kwargs. split.
  - intros ->. reflexivity.
  - intros g ->.
    destruct (g2p_phoneme_dict g) as [p|],
             (g2p_heteronyms g) as [h|],
             (g2p_adlr_symbol_id_mapper g) as [m|];
      cbn; rewrite <- ?app_assoc, ?app_nil_r;
      (split; [reflexivity|]); eexists; (split; [reflexivity|]);
      repeat split.
Qed.

(** The two ways [_setup_tokenizer] ends.  It always stores the
    instantiated tokenizer.  When that is a BaseTokenizer it also stores
    the tokenizer's pad id and tokens and returns; when it is anything else
    it raises NameError, never ValueError, with the tokenizer already
    stored and the pad id and the tokens left as they were. *)
Theorem setup_tokenizer_outcomes (cfg : tokenizer_config path)
  (self : tokenizer_fields path tokenizer_object pad_id token_list) :
  exists tokenizer,
    tokenizer
    = instantiate_tokenizer cfg (fst (tokenizer_kwargs register_artifact instantiate_g2p cfg (registered self))) /\
    self_tokenizer (snd (_setup_tokenizer register_artifact instantiate_g2p instantiate_tokenizer
            is_base_tokenizer tokenizer_pad tokenizer_tokens cfg self)) = Some tokenizer /\
    registered (snd (_setup_tokenizer register_artifact instantiate_g2p instantiate_tokenizer
            is_base_tokenizer tokenizer_pad tokenizer_tokens cfg self))
    = snd (tokenizer_kwargs register_artifact instantiate_g2p cfg (registered self)) /\
    (fst (_setup_tokenizer register_artifact instantiate_g2p instantiate_tokenizer
            is_base_tokenizer tokenizer_pad tokenizer_tokens cfg self) = Ok tt <-> is_base_tokenizer tokenizer = true) /\
    (fst (_setup_tokenizer register_artifact instantiate_g2p instantiate_tokenizer
            is_base_tokenizer tokenizer_pad tokenizer_tokens cfg self) = Raise (NameError "text_tokenizer_pad_id")
     <-> is_base_tokenizer tokenizer = false) /\
    (is_base_tokenizer tokenizer = true ->
     text_tokenizer_pad_id (snd (_setup_tokenizer register_artifact instantiate_g2p instantiate_tokenizer
            is_base_tokenizer tokenizer_pad tokenizer_tokens cfg self))
     = Some (tokenizer_pad tokenizer) /\
     tokens (snd (_setup_tokenizer register_artifact instantiate_g2p instantiate_tokenizer
            is_base_tokenizer tokenizer_pad tokenizer_tokens cfg self)) = Some (tokenizer_tokens tokenizer)) /\
    (is_base_tokenizer tokenizer = false ->
     text_tokenizer_pad_id (snd (_setup_tokenizer register_artifact instantiate_g2p instantiate_tokenizer
            is_base_tokenizer tokenizer_pad tokenizer_tokens cfg self))
     = text_tokenizer_pad_id self /\
     tokens (snd (_setup_tokenizer register_artifact instantiate_g2p instantiate_tokenizer
            is_base_tokenizer tokenizer_pad tokenizer_tokens cfg self)) = tokens self).
Proof.
  unfold _setup_tokenizer.
  destruct (tokenizer_kwargs register_artifact instantiate_g2p cfg (registered self)) as [kw calls] eqn:Hk.
  cbn [fst snd].
  exists (instantiate_tokenizer cfg kw). split; [reflexivity|].
  destruct (is_base_tokenizer (instantiate_tokenizer cfg kw)); cbn.
  - repeat split; try discriminate; auto.
  - repeat split; try discriminate; auto.
Qed.

End TokenizerSetupFacts.

(** ** The further properties on concrete inputs *)

Import ToySetup.

(** The empty batch stops both steps. *)
Lemma steps_reject_bad_batch_witness :
  training_step cfg_soft [] 0 (self_ab true 0)
  = (Raise IndexError, self_ab true 0) /\
  validation_step cfg_soft [] 0 (self_ab true 0)
  = (Raise IndexError, self_ab true 0).
Proof.
  apply (steps_reject_bad_batch cfg_soft [] 0 (self_ab true 0)).
  intros [H _]. simpl in H. lia.
Defined.

(** A batch of 16 tensors behaves as its first 14. *)
Lemma batch_tail_ignored_witness :
  training_step cfg_soft (batch14 ++ [vec [9]; vec [8]]) 0 (self_ab true 0)
  = training_step cfg_soft batch14 0 (self_ab true 0).
Proof.
  destruct (batch_tail_ignored cfg_soft (batch14 ++ [vec [9]; vec [8]]) 0
              (self_ab true 0)) as (_ & H & _); [simpl; lia|].
  exact H.
Defined.

(** Binarization on at step 100 is on at step 250. *)
Lemma phase_gates_monotone_witness :
  training_step_binarize cfg_late 250 = true /\
  validation_step_kl_test cfg_late (validation_step_binarize cfg_late 250) 250
  = true.
Proof.
  destruct (phase_gates_monotone cfg_late 100 250)
    as (Hb & _ & _ & _); [lia|].
  destruct (phase_gates_monotone cfg_late 200 250)
    as (_ & _ & _ & Hk); [lia|].
  split; [apply Hb | apply Hk]; reflexivity.
Defined.

(** A training step in the binarization phase, KL loss active. *)
Lemma training_step_kl_gate_witness :
  exists args,
    arg_binarize_attention args = true /\
    training_step cfg_binarized batch13 0 (self_ab true 10)
    = (Ok (t_add (scalar 2) (kl_of (C := collab_ab) args)),
       add_trace (self_ab true 10)
         (EvForward args :: kl_event args
          :: logged "train/"
               (training_record (kl_of (C := collab_ab) args)
                  (losses_of (C := collab_ab) args)))).
Proof.
  destruct (training_step_kl_gate cfg_binarized batch13 0 (self_ab true 10))
    as (args & Hflag & Hrun); [toy_batch_ok|].
  exists args. split; [exact Hflag|].
  destruct (Hrun (scalar 2) eq_refl) as [Hactive _].
  apply Hactive. simpl. lia.
Defined.

(** The log calls when the loss module has its own "binarization_loss": three
    calls, in the order of the mapping, and 5.0 is not logged. *)
Lemma training_step_log_order_witness :
  exists loss evs,
    training_step cfg_soft batch13 0 (self_clash true 0)
    = (Ok loss, add_trace (self_clash true 0) evs) /\
    logged_keys evs
    = ["train/a"; "train/binarization_loss"; "train/b"]%string /\
    ~ In (EvLog "train/binarization_loss" (scalar 5)) evs.
Proof.
  destruct (training_step_log_order cfg_soft batch13 0 (self_clash true 0))
    as (args & H); [toy_batch_ok|].
  destruct (H (nt_add (scalar 2) (scalar 5)) eq_refl)
    as (loss & evs & bl & Hrun & Hkeys & _ & Honly & Hbl).
  exists loss, evs. split; [exact Hrun|]. split; [exact Hkeys|].
  intros Hin. apply Honly in Hin.
  destruct Hbl as [Hbl|Hbl]; rewrite Hbl in Hin; discriminate Hin.
Defined.



(** Two data sets with manifests, set up in both orders. *)
Lemma setup_data_independent_witness :
  bind (setup_training_data (fun d : string => d) (@pair string nat)
          (loader_cfg "train" (Some "train.json") 8) no_loaders)
       (setup_validation_data (fun d : string => d) (@pair string nat)
          (loader_cfg "val" (Some "val.json") 4))
       (self_ab true 0)
  = (Ok {| _train_dl := Some ("train"%string, 8%nat);
           _validation_dl := Some ("val"%string, 4%nat) |},
     self_ab true 0).
Proof.
  destruct (setup_data_independent string string nat (string * nat)%type
              (fun d : string => d) (@pair string nat)
              (loader_cfg "train" (Some "train.json") 8)
              (loader_cfg "val" (Some "val.json") 4)
              no_loaders (self_ab true 0)) as (H & _);
    [discriminate | discriminate |].
  exact H.
Defined.

(** A data set whose manifest path was left out. *)
Example setup_without_manifest :
  setup_training_data (fun d : string => d) (@pair string nat)
    (loader_cfg "train" None 8) no_loaders (self_ab true 0)
  = (Raise (NameError "omegaconf"), self_ab true 0).
Proof. reflexivity. Qed.
